(** * Entitlement engine of the Sadaa instrumentals backend

    A shallow embedding of the handlers of [backend/server.py] and of
    the part of the document store they talk to: first the subscription
    handlers ([subscribe], [get_subscription_status],
    [restore_purchase], [cancel_subscription]) with the properties of
    the subscription state machine, then the identity service, the
    catalog, the statistics and the seeding with theirs.

    Modelling conventions.
    - A collection is the list of its documents in storage order;
      [find_one] and [update_one] act on the first document matching the
      filter, [update_many] on all of them, [insert_one] appends.  The
      store keeps a document in its BSON encoding: an instant is kept
      at millisecond precision, the microseconds below are dropped, and
      every other field is kept as it is handed in.  So the record a
      handler built and the record that is read back can differ in
      their instants.
    - A [datetime] is a naive UTC instant counted in microseconds (the
      resolution of Python's [datetime]); [timedelta(days=n)] is
      [n * 86400000000] microseconds.  Instants are unbounded integers:
      the upper limit of Python's [datetime] (year 9999) is out of reach
      of a clock read plus 365 days.
    - A price is a binary64 float, as in Python.
    - [datetime.utcnow()] and [uuid.uuid4()] are reads of the outside
      world: every read a handler performs is an explicit argument of
      its model, in the order in which the handler performs them.
    - A handler is a computation in the state monad over the database;
      the dictionaries returned to the client are finite maps from keys
      to JSON-like values.  The subscription and identity handlers run
      over the [subscriptions] and [users] collections, the catalog
      handlers over the [instrumentals] collection, which no other
      handler writes.
    - A handler that can raise ends in an [outcome]: its result or the
      exception.
    - The regular-expression match of the store is a parameter of the
      listing. *)

From Stdlib Require Import ZArith List Bool Lia.
From Stdlib Require Import Floats.PrimFloat.
From stdpp Require Import base strings gmap pretty.
Import ListNotations.

Local Open Scope string_scope.
Local Open Scope Z_scope.
Local Open Scope list_scope.

(** ** Data model *)

Definition datetime := Z.

Definition timedelta_days (n : Z) : Z := n * 86400000000.

(** What the store keeps of an instant: a BSON date counts whole
    milliseconds. *)
Definition bson_datetime (t : datetime) : datetime := t / 1000 * 1000.

(** [class Subscription(BaseModel)] *)
Module Subscription.
Record t := mk {
  id : string;
  user_id : string;
  is_active : bool;
  plan : string;
  price : float;
  subscribed_at : datetime;
  expires_at : option datetime
}.

(** The patch [{"$set": {"is_active": b}}]. *)
Definition set_is_active (b : bool) (s : t) : t :=
  {| id := id s; user_id := user_id s; is_active := b; plan := plan s;
     price := price s; subscribed_at := subscribed_at s;
     expires_at := expires_at s |}.

(** The document as the store keeps it. *)
Definition stored (s : t) : t :=
  {| id := id s; user_id := user_id s; is_active := is_active s;
     plan := plan s; price := price s;
     subscribed_at := bson_datetime (subscribed_at s);
     expires_at := option_map bson_datetime (expires_at s) |}.
End Subscription.

(** [class SubscriptionCreate(BaseModel)] *)
Module SubscriptionCreate.
Record t := mk { user_id : string; plan : string }.
End SubscriptionCreate.

(** [class User(BaseModel)] *)
Module User.
Record t := mk {
  id : string;
  device_id : string;
  is_subscribed : bool;
  created_at : datetime
}.

(** The patch [{"$set": {"is_subscribed": b}}]. *)
Definition set_is_subscribed (b : bool) (u : t) : t :=
  {| id := id u; device_id := device_id u; is_subscribed := b;
     created_at := created_at u |}.

(** The document as the store keeps it. *)
Definition stored (u : t) : t :=
  {| id := id u; device_id := device_id u; is_subscribed := is_subscribed u;
     created_at := bson_datetime (created_at u) |}.
End User.

(** ** The document store *)

Module Collection.
Section Ops.
Context {A : Type}.

(** A [$set] patch: what it does to a document, and whether it changes
    the document (the store counts only changed documents in
    [modified_count]). *)
Record patch := { apply : A -> A; changes : A -> bool }.

Definition find_one (flt : A -> bool) (c : list A) : option A :=
  List.find flt c.

(** [stored] is what the store keeps of a document of the
    collection. *)
Definition insert_one (stored : A -> A) (d : A) (c : list A) : list A :=
  c ++ [stored d].

Fixpoint update_one (flt : A -> bool) (p : patch) (c : list A) : list A :=
  match c with
  | [] => []
  | d :: c' => if flt d then apply p d :: c' else d :: update_one flt p c'
  end.

Definition update_many (flt : A -> bool) (p : patch) (c : list A) : list A :=
  List.map (fun d => if flt d then apply p d else d) c.

Definition modified_count (flt : A -> bool) (p : patch) (c : list A) : nat :=
  length (List.filter (fun d => flt d && changes p d) c).
End Ops.

Arguments patch : clear implicits.
End Collection.

Definition set_active (b : bool) : Collection.patch Subscription.t :=
  {| Collection.apply := Subscription.set_is_active b;
     Collection.changes := fun s => negb (Bool.eqb (Subscription.is_active s) b) |}.

Definition set_subscribed (b : bool) : Collection.patch User.t :=
  {| Collection.apply := User.set_is_subscribed b;
     Collection.changes := fun u => negb (Bool.eqb (User.is_subscribed u) b) |}.

(** The database [db]: the two collections the engine reads and writes. *)
Record DB := mkDB {
  subscriptions : list Subscription.t;
  users : list User.t
}.

Definition empty_db : DB := {| subscriptions := []; users := [] |}.

(** ** Handlers as state computations *)

Definition M (A : Type) : Type := DB -> A * DB.

Definition ret {A} (a : A) : M A := fun db => (a, db).

Definition bind {A B} (k : A -> M B) (m : M A) : M B :=
  fun db => let '(a, db') := m db in k a db'.

#[global] Instance M_mret : MRet M := @ret.
#[global] Instance M_bind : MBind M := @bind.

Module db.
Module subscriptions.
Definition find_one (flt : Subscription.t -> bool)
  : M (option Subscription.t) :=
  fun d => (Collection.find_one flt (subscriptions d), d).

Definition insert_one (s : Subscription.t) : M unit :=
  fun d => (tt, {| subscriptions :=
                     Collection.insert_one Subscription.stored s (subscriptions d);
                   users := users d |}).

Definition update_one (flt : Subscription.t -> bool)
    (p : Collection.patch Subscription.t) : M unit :=
  fun d => (tt, {| subscriptions := Collection.update_one flt p (subscriptions d);
                   users := users d |}).

(** Returns the result's [modified_count]. *)
Definition update_many (flt : Subscription.t -> bool)
    (p : Collection.patch Subscription.t) : M nat :=
  fun d => (Collection.modified_count flt p (subscriptions d),
            {| subscriptions := Collection.update_many flt p (subscriptions d);
               users := users d |}).
End subscriptions.

Module users.
Definition update_one (flt : User.t -> bool) (p : Collection.patch User.t) : M unit :=
  fun d => (tt, {| subscriptions := subscriptions d;
                   users := Collection.update_one flt p (users d) |}).
End users.
End db.

(** Values that occur in the dictionaries returned to the client. *)
Inductive value :=
| VNone
| VBool (b : bool)
| VStr (s : string)
| VSubscription (s : Subscription.t).

(** The query [{"user_id": u, "is_active": True}]. *)
Definition active_of (u : string) (s : Subscription.t) : bool :=
  String.eqb (Subscription.user_id s) u && Bool.eqb (Subscription.is_active s) true.

(** The query [{"id": i}] on either collection. *)
Definition sub_with_id (i : string) (s : Subscription.t) : bool :=
  String.eqb (Subscription.id s) i.

Definition user_with_id (i : string) (u : User.t) : bool :=
  String.eqb (User.id u) i.

(** [subscribe]: [t_exp] is the clock read of the expiry computation,
    [new_id] and [t_sub] are the [uuid4] and clock reads of the default
    factories of [Subscription]. *)
Definition subscribe (t_exp : datetime) (new_id : string) (t_sub : datetime)
    (data : SubscriptionCreate.t) : M Subscription.t :=
  existing ← db.subscriptions.find_one (active_of (SubscriptionCreate.user_id data));
  match existing with
  | Some e => mret e
  | None =>
      let '(expires_at, price) :=
        if String.eqb (SubscriptionCreate.plan data) "yearly"
        then ((t_exp + timedelta_days 365)%Z, 499%float)
        else ((t_exp + timedelta_days 30)%Z, 53%float) in
      let subscription :=
        {| Subscription.id := new_id;
           Subscription.user_id := SubscriptionCreate.user_id data;
           Subscription.is_active := true;
           Subscription.plan := SubscriptionCreate.plan data;
           Subscription.price := price;
           Subscription.subscribed_at := t_sub;
           Subscription.expires_at := Some expires_at |} in
      db.subscriptions.insert_one subscription ;;
      db.users.update_one (user_with_id (SubscriptionCreate.user_id data))
        (set_subscribed true) ;;
      mret subscription
  end.

(** [sub.expires_at and sub.expires_at < datetime.utcnow()] *)
Definition expired (now : datetime) (s : Subscription.t) : bool :=
  match Subscription.expires_at s with
  | Some e => (e <? now)%Z
  | None => false
  end.

Definition get_subscription_status (now : datetime) (user_id : string)
    : M (gmap string value) :=
  subscription ← db.subscriptions.find_one (active_of user_id);
  match subscription with
  | None => mret {[ "is_subscribed" := VBool false; "subscription" := VNone ]}
  | Some sub =>
      if expired now sub then
        db.subscriptions.update_one (sub_with_id (Subscription.id sub))
          (set_active false) ;;
        db.users.update_one (user_with_id user_id) (set_subscribed false) ;;
        mret {[ "is_subscribed" := VBool false; "subscription" := VNone ]}
      else
        mret {[ "is_subscribed" := VBool true; "subscription" := VSubscription sub ]}
  end.

Definition restore_purchase (user_id : string) : M (gmap string value) :=
  subscription ← db.subscriptions.find_one (active_of user_id);
  match subscription with
  | Some sub =>
      mret {[ "restored" := VBool true; "subscription" := VSubscription sub ]}
  | None =>
      mret {[ "restored" := VBool false;
             "message" := VStr "No active subscription found to restore" ]}
  end.

Definition cancel_subscription (user_id : string) : M (gmap string value) :=
  modified ← db.subscriptions.update_many (active_of user_id) (set_active false);
  db.users.update_one (user_with_id user_id) (set_subscribed false) ;;
  mret {[ "message" := VStr "Subscription cancelled";
         "cancelled" := VBool (0 <? modified)%nat ]}.

(** ** Vocabulary of the properties *)

(** The rows of [u] that the store holds as active. *)
Definition active_rows (u : string) (d : DB) : list Subscription.t :=
  List.filter (active_of u) (subscriptions d).

Definition has_active (d : DB) (u : string) : Prop :=
  exists r, In r (subscriptions d) /\
            Subscription.user_id r = u /\ Subscription.is_active r = true.

Definition no_active (d : DB) (u : string) : Prop :=
  forall r, In r (subscriptions d) ->
            Subscription.user_id r = u -> Subscription.is_active r = false.

(** The relationship invariant of the data model. *)
Definition at_most_one_active (d : DB) (u : string) : Prop :=
  (length (active_rows u d) <= 1)%nat.

(** Identifiers are keys: no two subscriptions and no two users share
    an [id]. *)
Definition unique_ids (d : DB) : Prop :=
  List.NoDup (map Subscription.id (subscriptions d)) /\
  List.NoDup (map User.id (users d)).

(** The requests a client can send to the engine, each with the reads
    of the outside world its handler performs. *)
Inductive request :=
| Subscribe (t_exp : datetime) (new_id : string) (t_sub : datetime)
            (data : SubscriptionCreate.t)
| GetStatus (now : datetime) (user_id : string)
| Restore (user_id : string)
| Cancel (user_id : string).

(** The database after a request has been served. *)
Definition serve (d : DB) (q : request) : DB :=
  match q with
  | Subscribe t_exp new_id t_sub data => snd (subscribe t_exp new_id t_sub data d)
  | GetStatus now u => snd (get_subscription_status now u d)
  | Restore u => snd (restore_purchase u d)
  | Cancel u => snd (cancel_subscription u d)
  end.

(** A sequential execution: requests served one after the other. *)
Definition serve_all (qs : list request) (d : DB) : DB :=
  List.fold_left serve qs d.

(** ** The identity service *)

(** [class UserCreate(BaseModel)] *)
Module UserCreate.
Record t := mk { device_id : string }.
End UserCreate.

(** How a handler that can fail ends: with its result, with the
    [HTTPException] it raises, or with the [TypeError] of unpacking
    [None] into the [Instrumental] constructor. *)
Inductive outcome (A : Type) :=
| Return (a : A)
| HTTPException (status_code : Z) (detail : string)
| TypeError.

Arguments Return {A} a.
Arguments HTTPException {A} status_code detail.
Arguments TypeError {A}.

(** The query [{"device_id": dev}]. *)
Definition user_with_device (dev : string) (u : User.t) : bool :=
  String.eqb (User.device_id u) dev.

Module db_users.
Definition find_one (flt : User.t -> bool) : M (option User.t) :=
  fun d => (Collection.find_one flt (users d), d).

Definition insert_one (u : User.t) : M unit :=
  fun d => (tt, {| subscriptions := subscriptions d;
                   users := Collection.insert_one User.stored u (users d) |}).
End db_users.

(** [create_or_get_user]: [new_id] and [now] are the [uuid4] and clock
    reads of the default factories of [User]. *)
Definition create_or_get_user (new_id : string) (now : datetime)
    (data : UserCreate.t) : M User.t :=
  existing ← db_users.find_one (user_with_device (UserCreate.device_id data));
  match existing with
  | Some e => mret e
  | None =>
      let user :=
        {| User.id := new_id;
           User.device_id := UserCreate.device_id data;
           User.is_subscribed := false;
           User.created_at := now |} in
      db_users.insert_one user ;;
      mret user
  end.

Definition get_user (device_id : string) : M (outcome User.t) :=
  user ← db_users.find_one (user_with_device device_id);
  match user with
  | None => mret (HTTPException 404 "User not found")
  | Some u => mret (Return u)
  end.

(** ** The catalog *)

(** [class Instrumental(BaseModel)] *)
Module Instrumental.
Record t := mk {
  id : string;
  title : string;
  mood : string;
  duration : Z;
  duration_formatted : string;
  is_premium : bool;
  is_featured : bool;
  audio_url : option string;
  thumbnail_color : string;
  file_size : Z;
  created_at : datetime
}.

(** The document as the store keeps it. *)
Definition stored (i : t) : t :=
  {| id := id i; title := title i; mood := mood i; duration := duration i;
     duration_formatted := duration_formatted i; is_premium := is_premium i;
     is_featured := is_featured i; audio_url := audio_url i;
     thumbnail_color := thumbnail_color i; file_size := file_size i;
     created_at := bson_datetime (created_at i) |}.
End Instrumental.

(** [class InstrumentalCreate(BaseModel)] *)
Module InstrumentalCreate.
Record t := mk {
  title : string;
  mood : string;
  duration : Z;
  duration_formatted : string;
  is_premium : bool;
  is_featured : bool;
  audio_url : option string;
  thumbnail_color : string;
  file_size : Z
}.
End InstrumentalCreate.

(** [class InstrumentalUpdate(BaseModel)] *)
Module InstrumentalUpdate.
Record t := mk {
  title : option string;
  mood : option string;
  duration : option Z;
  duration_formatted : option string;
  is_premium : option bool;
  is_featured : option bool;
  audio_url : option string;
  thumbnail_color : option string;
  file_size : option Z
}.
End InstrumentalUpdate.

(** The values of the fields of an update. *)
Inductive field_value :=
| FStr (s : string)
| FInt (n : Z)
| FBool (b : bool).

(** [data.dict().items()]: the fields in declaration order, [None] for
    the ones that were not sent. *)
Definition update_items (data : InstrumentalUpdate.t)
    : list (string * option field_value) :=
  [ ("title", FStr <$> InstrumentalUpdate.title data);
    ("mood", FStr <$> InstrumentalUpdate.mood data);
    ("duration", FInt <$> InstrumentalUpdate.duration data);
    ("duration_formatted", FStr <$> InstrumentalUpdate.duration_formatted data);
    ("is_premium", FBool <$> InstrumentalUpdate.is_premium data);
    ("is_featured", FBool <$> InstrumentalUpdate.is_featured data);
    ("audio_url", FStr <$> InstrumentalUpdate.audio_url data);
    ("thumbnail_color", FStr <$> InstrumentalUpdate.thumbnail_color data);
    ("file_size", FInt <$> InstrumentalUpdate.file_size data) ].

(** [{k: v for k, v in data.dict().items() if v is not None}] *)
Fixpoint not_none (items : list (string * option field_value))
    : list (string * field_value) :=
  match items with
  | [] => []
  | (k, Some v) :: rest => (k, v) :: not_none rest
  | (_, None) :: rest => not_none rest
  end.

Definition update_data (data : InstrumentalUpdate.t)
    : list (string * field_value) :=
  not_none (update_items data).

(** [$set] of one field of a stored instrumental.  The pairs that
    [update_data] and [update_audio_url] build name a field of the model
    with a value of its type; any other pair is left without effect. *)
Definition set_field (i : Instrumental.t) (kv : string * field_value)
    : Instrumental.t :=
  let '(k, v) := kv in
  let with_str (f : string -> Instrumental.t) :=
    match v with FStr s => f s | _ => i end in
  let with_int (f : Z -> Instrumental.t) :=
    match v with FInt n => f n | _ => i end in
  let with_bool (f : bool -> Instrumental.t) :=
    match v with FBool b => f b | _ => i end in
  let '(Instrumental.mk id title mood duration duration_formatted is_premium
          is_featured audio_url thumbnail_color file_size created_at) := i in
  if String.eqb k "title" then
    with_str (fun s => Instrumental.mk id s mood duration duration_formatted
                is_premium is_featured audio_url thumbnail_color file_size created_at)
  else if String.eqb k "mood" then
    with_str (fun s => Instrumental.mk id title s duration duration_formatted
                is_premium is_featured audio_url thumbnail_color file_size created_at)
  else if String.eqb k "duration" then
    with_int (fun n => Instrumental.mk id title mood n duration_formatted
                is_premium is_featured audio_url thumbnail_color file_size created_at)
  else if String.eqb k "duration_formatted" then
    with_str (fun s => Instrumental.mk id title mood duration s
                is_premium is_featured audio_url thumbnail_color file_size created_at)
  else if String.eqb k "is_premium" then
    with_bool (fun b => Instrumental.mk id title mood duration duration_formatted
                 b is_featured audio_url thumbnail_color file_size created_at)
  else if String.eqb k "is_featured" then
    with_bool (fun b => Instrumental.mk id title mood duration duration_formatted
                 is_premium b audio_url thumbnail_color file_size created_at)
  else if String.eqb k "audio_url" then
    with_str (fun s => Instrumental.mk id title mood duration duration_formatted
                is_premium is_featured (Some s) thumbnail_color file_size created_at)
  else if String.eqb k "thumbnail_color" then
    with_str (fun s => Instrumental.mk id title mood duration duration_formatted
                is_premium is_featured audio_url s file_size created_at)
  else if String.eqb k "file_size" then
    with_int (fun n => Instrumental.mk id title mood duration duration_formatted
                is_premium is_featured audio_url thumbnail_color n created_at)
  else i.

(** The patch [{"$set": fields}]. *)
Definition set_fields (fields : list (string * field_value))
    (i : Instrumental.t) : Instrumental.t :=
  List.fold_left set_field fields i.

Definition instrumental_eqb (a b : Instrumental.t) : bool :=
  String.eqb (Instrumental.id a) (Instrumental.id b) &&
  String.eqb (Instrumental.title a) (Instrumental.title b) &&
  String.eqb (Instrumental.mood a) (Instrumental.mood b) &&
  Z.eqb (Instrumental.duration a) (Instrumental.duration b) &&
  String.eqb (Instrumental.duration_formatted a) (Instrumental.duration_formatted b) &&
  Bool.eqb (Instrumental.is_premium a) (Instrumental.is_premium b) &&
  Bool.eqb (Instrumental.is_featured a) (Instrumental.is_featured b) &&
  match Instrumental.audio_url a, Instrumental.audio_url b with
  | Some x, Some y => String.eqb x y
  | None, None => true
  | _, _ => false
  end &&
  String.eqb (Instrumental.thumbnail_color a) (Instrumental.thumbnail_color b) &&
  Z.eqb (Instrumental.file_size a) (Instrumental.file_size b) &&
  Z.eqb (Instrumental.created_at a) (Instrumental.created_at b).

Definition set_patch (fields : list (string * field_value))
    : Collection.patch Instrumental.t :=
  {| Collection.apply := set_fields fields;
     Collection.changes := fun i => negb (instrumental_eqb (set_fields fields i) i) |}.

(** The [instrumentals] collection is the state of the catalog
    handlers. *)
Definition C (A : Type) : Type :=
  list Instrumental.t -> A * list Instrumental.t.

#[global] Instance C_mret : MRet C := fun A a c => (a, c).
#[global] Instance C_bind : MBind C :=
  fun A B k m c => let '(a, c') := m c in k a c'.

Module db_instrumentals.
Definition find_one (flt : Instrumental.t -> bool) : C (option Instrumental.t) :=
  fun c => (Collection.find_one flt c, c).

(** [find(query).to_list(n)] *)
Definition find_to_list (flt : Instrumental.t -> bool) (n : nat)
    : C (list Instrumental.t) :=
  fun c => (List.firstn n (List.filter flt c), c).

Definition insert_one (i : Instrumental.t) : C unit :=
  fun c => (tt, Collection.insert_one Instrumental.stored i c).

(** Returns the result's [matched_count]. *)
Definition update_one (flt : Instrumental.t -> bool)
    (p : Collection.patch Instrumental.t) : C nat :=
  fun c => (match Collection.find_one flt c with Some _ => 1 | None => 0 end%nat,
            Collection.update_one flt p c).

Fixpoint remove_first (flt : Instrumental.t -> bool) (c : list Instrumental.t)
    : list Instrumental.t :=
  match c with
  | [] => []
  | i :: c' => if flt i then c' else i :: remove_first flt c'
  end.

(** Returns the result's [deleted_count]. *)
Definition delete_one (flt : Instrumental.t -> bool) : C nat :=
  fun c => (match Collection.find_one flt c with Some _ => 1 | None => 0 end%nat,
            remove_first flt c).

Definition delete_many (flt : Instrumental.t -> bool) : C unit :=
  fun c => (tt, List.filter (fun i => negb (flt i)) c).

Definition count_documents (flt : Instrumental.t -> bool) : C nat :=
  fun c => (length (List.filter flt c), c).
End db_instrumentals.

(** The query [{"id": i}] on the catalog. *)
Definition instrumental_with_id (i : string) (x : Instrumental.t) : bool :=
  String.eqb (Instrumental.id x) i.

(** The [Instrumental] built from the fields of [item]: the default
    factories add a fresh id and the creation instant. *)
Definition new_instrumental (new_id : string) (now : datetime)
    (item : InstrumentalCreate.t) : Instrumental.t :=
  {| Instrumental.id := new_id;
     Instrumental.title := InstrumentalCreate.title item;
     Instrumental.mood := InstrumentalCreate.mood item;
     Instrumental.duration := InstrumentalCreate.duration item;
     Instrumental.duration_formatted := InstrumentalCreate.duration_formatted item;
     Instrumental.is_premium := InstrumentalCreate.is_premium item;
     Instrumental.is_featured := InstrumentalCreate.is_featured item;
     Instrumental.audio_url := InstrumentalCreate.audio_url item;
     Instrumental.thumbnail_color := InstrumentalCreate.thumbnail_color item;
     Instrumental.file_size := InstrumentalCreate.file_size item;
     Instrumental.created_at := now |}.

Section Listing.
(** The store's case-insensitive [$regex] match of a pattern against a
    title. *)
Variable regex_search_i : string -> string -> bool.

(** The query that [get_instrumentals] builds: a constraint for each
    key it put into [query]. *)
Definition listing_query (mood : option string) (is_premium : option bool)
    (search : option string) (i : Instrumental.t) : bool :=
  match mood with
  | Some m =>
      if negb (String.eqb m "") && negb (String.eqb m "All")
      then String.eqb (Instrumental.mood i) m else true
  | None => true
  end &&
  match is_premium with
  | Some p => Bool.eqb (Instrumental.is_premium i) p
  | None => true
  end &&
  match search with
  | Some s =>
      if negb (String.eqb s "")
      then regex_search_i s (Instrumental.title i) else true
  | None => true
  end.

Definition get_instrumentals (mood : option string) (is_premium : option bool)
    (search : option string) : C (list Instrumental.t) :=
  db_instrumentals.find_to_list (listing_query mood is_premium search) 100.
End Listing.

Definition get_featured_instrumentals : C (list Instrumental.t) :=
  db_instrumentals.find_to_list
    (fun i => Bool.eqb (Instrumental.is_featured i) true) 10.

Definition get_instrumental (instrumental_id : string)
    : C (outcome Instrumental.t) :=
  instrumental ← db_instrumentals.find_one (instrumental_with_id instrumental_id);
  match instrumental with
  | None => mret (HTTPException 404 "Instrumental not found")
  | Some i => mret (Return i)
  end.

Definition create_instrumental (new_id : string) (now : datetime)
    (data : InstrumentalCreate.t) : C Instrumental.t :=
  let instrumental := new_instrumental new_id now data in
  db_instrumentals.insert_one instrumental ;;
  mret instrumental.

Definition update_instrumental (instrumental_id : string)
    (data : InstrumentalUpdate.t) : C (outcome Instrumental.t) :=
  let update_data := update_data data in
  match update_data with
  | [] => mret (HTTPException 400 "No update data provided")
  | _ =>
      matched_count ← db_instrumentals.update_one
                        (instrumental_with_id instrumental_id)
                        (set_patch update_data);
      if (matched_count =? 0)%nat then
        mret (HTTPException 404 "Instrumental not found")
      else
        instrumental ← db_instrumentals.find_one
                         (instrumental_with_id instrumental_id);
        match instrumental with
        | Some i => mret (Return i)
        | None => mret TypeError
        end
  end.

Definition delete_instrumental (instrumental_id : string)
    : C (outcome (gmap string string)) :=
  deleted_count ← db_instrumentals.delete_one
                    (instrumental_with_id instrumental_id);
  if (deleted_count =? 0)%nat then
    mret (HTTPException 404 "Instrumental not found")
  else
    mret (Return {[ "message" := "Instrumental deleted successfully" ]}).

Definition update_audio_url (instrumental_id : string) (audio_url : string)
    (file_size : Z) : C (outcome (gmap string string)) :=
  matched_count ← db_instrumentals.update_one
                    (instrumental_with_id instrumental_id)
                    (set_patch [("audio_url", FStr audio_url);
                                ("file_size", FInt file_size)]);
  if (matched_count =? 0)%nat then
    mret (HTTPException 404 "Instrumental not found")
  else
    mret (Return {[ "message" := "Audio URL updated successfully" ]}).

(** [get_stats] reads all three collections. *)
Definition get_stats (c : list Instrumental.t) (d : DB) : gmap string nat :=
  let total_instrumentals := length c in
  let premium_instrumentals :=
    length (List.filter (fun i => Bool.eqb (Instrumental.is_premium i) true) c) in
  let free_instrumentals :=
    length (List.filter (fun i => Bool.eqb (Instrumental.is_premium i) false) c) in
  let total_users := length (users d) in
  let active_subscriptions :=
    length (List.filter (fun s => Bool.eqb (Subscription.is_active s) true)
              (subscriptions d)) in
  {[ "total_instrumentals" := total_instrumentals;
     "premium_instrumentals" := premium_instrumentals;
     "free_instrumentals" := free_instrumentals;
     "total_users" := total_users;
     "active_subscriptions" := active_subscriptions ]}.

(** [SAMPLE_INSTRUMENTALS] *)
Definition SAMPLE_INSTRUMENTALS : list InstrumentalCreate.t :=
[
  {| InstrumentalCreate.title := "Mawla Ya Salli - Peaceful";
     InstrumentalCreate.mood := "Spiritual";
     InstrumentalCreate.duration := 245;
     InstrumentalCreate.duration_formatted := "4:05";
     InstrumentalCreate.is_premium := false;
     InstrumentalCreate.is_featured := true;
     InstrumentalCreate.audio_url :=
       Some "https://www.soundhelix.com/examples/mp3/SoundHelix-Song-1.mp3";
     InstrumentalCreate.thumbnail_color := "#4A3463";
     InstrumentalCreate.file_size := 4500000 |};
  {| InstrumentalCreate.title := "Nasheed of Dawn";
     InstrumentalCreate.mood := "Calm";
     InstrumentalCreate.duration := 312;
     InstrumentalCreate.duration_formatted := "5:12";
     InstrumentalCreate.is_premium := true;
     InstrumentalCreate.is_featured := true;
     InstrumentalCreate.audio_url :=
       Some "https://www.soundhelix.com/examples/mp3/SoundHelix-Song-2.mp3";
     InstrumentalCreate.thumbnail_color := "#2D5A4A";
     InstrumentalCreate.file_size := 5200000 |};
  {| InstrumentalCreate.title := "Morning Dhikr";
     InstrumentalCreate.mood := "Calm";
     InstrumentalCreate.duration := 180;
     InstrumentalCreate.duration_formatted := "3:00";
     InstrumentalCreate.is_premium := false;
     InstrumentalCreate.is_featured := false;
     InstrumentalCreate.audio_url :=
       Some "https://www.soundhelix.com/examples/mp3/SoundHelix-Song-3.mp3";
     InstrumentalCreate.thumbnail_color := "#5A4A63";
     InstrumentalCreate.file_size := 3200000 |};
  {| InstrumentalCreate.title := "Peaceful Heart";
     InstrumentalCreate.mood := "Soft";
     InstrumentalCreate.duration := 210;
     InstrumentalCreate.duration_formatted := "3:30";
     InstrumentalCreate.is_premium := false;
     InstrumentalCreate.is_featured := false;
     InstrumentalCreate.audio_url :=
       Some "https://www.soundhelix.com/examples/mp3/SoundHelix-Song-4.mp3";
     InstrumentalCreate.thumbnail_color := "#4A5A63";
     InstrumentalCreate.file_size := 3800000 |};
  {| InstrumentalCreate.title := "Blessed Sunrise";
     InstrumentalCreate.mood := "Spiritual";
     InstrumentalCreate.duration := 195;
     InstrumentalCreate.duration_formatted := "3:15";
     InstrumentalCreate.is_premium := false;
     InstrumentalCreate.is_featured := false;
     InstrumentalCreate.audio_url :=
       Some "https://www.soundhelix.com/examples/mp3/SoundHelix-Song-5.mp3";
     InstrumentalCreate.thumbnail_color := "#634A5A";
     InstrumentalCreate.file_size := 3500000 |};
  {| InstrumentalCreate.title := "Gentle Breeze";
     InstrumentalCreate.mood := "Calm";
     InstrumentalCreate.duration := 240;
     InstrumentalCreate.duration_formatted := "4:00";
     InstrumentalCreate.is_premium := false;
     InstrumentalCreate.is_featured := false;
     InstrumentalCreate.audio_url :=
       Some "https://www.soundhelix.com/examples/mp3/SoundHelix-Song-6.mp3";
     InstrumentalCreate.thumbnail_color := "#4A6357";
     InstrumentalCreate.file_size := 4200000 |};
  {| InstrumentalCreate.title := "Silent Prayer";
     InstrumentalCreate.mood := "Soft";
     InstrumentalCreate.duration := 165;
     InstrumentalCreate.duration_formatted := "2:45";
     InstrumentalCreate.is_premium := false;
     InstrumentalCreate.is_featured := false;
     InstrumentalCreate.audio_url :=
       Some "https://www.soundhelix.com/examples/mp3/SoundHelix-Song-7.mp3";
     InstrumentalCreate.thumbnail_color := "#574A63";
     InstrumentalCreate.file_size := 2900000 |};
  {| InstrumentalCreate.title := "Ya Sahib al-Taj";
     InstrumentalCreate.mood := "Spiritual";
     InstrumentalCreate.duration := 420;
     InstrumentalCreate.duration_formatted := "7:00";
     InstrumentalCreate.is_premium := true;
     InstrumentalCreate.is_featured := false;
     InstrumentalCreate.audio_url :=
       Some "https://www.soundhelix.com/examples/mp3/SoundHelix-Song-8.mp3";
     InstrumentalCreate.thumbnail_color := "#634A4A";
     InstrumentalCreate.file_size := 7200000 |};
  {| InstrumentalCreate.title := "Drums of Devotion";
     InstrumentalCreate.mood := "Drums";
     InstrumentalCreate.duration := 285;
     InstrumentalCreate.duration_formatted := "4:45";
     InstrumentalCreate.is_premium := true;
     InstrumentalCreate.is_featured := false;
     InstrumentalCreate.audio_url :=
       Some "https://www.soundhelix.com/examples/mp3/SoundHelix-Song-9.mp3";
     InstrumentalCreate.thumbnail_color := "#8B5A2B";
     InstrumentalCreate.file_size := 5000000 |};
  {| InstrumentalCreate.title := "Energetic Praise";
     InstrumentalCreate.mood := "Energetic";
     InstrumentalCreate.duration := 198;
     InstrumentalCreate.duration_formatted := "3:18";
     InstrumentalCreate.is_premium := true;
     InstrumentalCreate.is_featured := false;
     InstrumentalCreate.audio_url :=
       Some "https://www.soundhelix.com/examples/mp3/SoundHelix-Song-10.mp3";
     InstrumentalCreate.thumbnail_color := "#6B4A3A";
     InstrumentalCreate.file_size := 3600000 |};
  {| InstrumentalCreate.title := "Sacred Rhythm";
     InstrumentalCreate.mood := "Drums";
     InstrumentalCreate.duration := 330;
     InstrumentalCreate.duration_formatted := "5:30";
     InstrumentalCreate.is_premium := true;
     InstrumentalCreate.is_featured := false;
     InstrumentalCreate.audio_url :=
       Some "https://www.soundhelix.com/examples/mp3/SoundHelix-Song-11.mp3";
     InstrumentalCreate.thumbnail_color := "#4A4A63";
     InstrumentalCreate.file_size := 5800000 |};
  {| InstrumentalCreate.title := "Night of Peace";
     InstrumentalCreate.mood := "Calm";
     InstrumentalCreate.duration := 480;
     InstrumentalCreate.duration_formatted := "8:00";
     InstrumentalCreate.is_premium := true;
     InstrumentalCreate.is_featured := false;
     InstrumentalCreate.audio_url :=
       Some "https://www.soundhelix.com/examples/mp3/SoundHelix-Song-12.mp3";
     InstrumentalCreate.thumbnail_color := "#2A3A4A";
     InstrumentalCreate.file_size := 8200000 |};
  {| InstrumentalCreate.title := "Joyful Celebration";
     InstrumentalCreate.mood := "Energetic";
     InstrumentalCreate.duration := 252;
     InstrumentalCreate.duration_formatted := "4:12";
     InstrumentalCreate.is_premium := true;
     InstrumentalCreate.is_featured := false;
     InstrumentalCreate.audio_url :=
       Some "https://www.soundhelix.com/examples/mp3/SoundHelix-Song-13.mp3";
     InstrumentalCreate.thumbnail_color := "#5A3A4A";
     InstrumentalCreate.file_size := 4500000 |};
  {| InstrumentalCreate.title := "Soft Meditation";
     InstrumentalCreate.mood := "Soft";
     InstrumentalCreate.duration := 360;
     InstrumentalCreate.duration_formatted := "6:00";
     InstrumentalCreate.is_premium := true;
     InstrumentalCreate.is_featured := false;
     InstrumentalCreate.audio_url :=
       Some "https://www.soundhelix.com/examples/mp3/SoundHelix-Song-14.mp3";
     InstrumentalCreate.thumbnail_color := "#3A4A5A";
     InstrumentalCreate.file_size := 6300000 |};
  {| InstrumentalCreate.title := "Divine Harmony";
     InstrumentalCreate.mood := "Spiritual";
     InstrumentalCreate.duration := 390;
     InstrumentalCreate.duration_formatted := "6:30";
     InstrumentalCreate.is_premium := true;
     InstrumentalCreate.is_featured := false;
     InstrumentalCreate.audio_url :=
       Some "https://www.soundhelix.com/examples/mp3/SoundHelix-Song-15.mp3";
     InstrumentalCreate.thumbnail_color := "#4A3A5A";
     InstrumentalCreate.file_size := 6800000 |}
].

(** The loop of [seed_database]: its [k]-th round builds an
    [Instrumental] with the [k]-th [uuid4] and clock reads of the
    handler and inserts it. *)
Fixpoint seed_loop (uuid4 : nat -> string) (utcnow : nat -> datetime)
    (k : nat) (items : list InstrumentalCreate.t) : C unit :=
  match items with
  | [] => mret tt
  | item :: rest =>
      db_instrumentals.insert_one (new_instrumental (uuid4 k) (utcnow k) item) ;;
      seed_loop uuid4 utcnow (S k) rest
  end.

Definition seed_database (uuid4 : nat -> string) (utcnow : nat -> datetime)
    : C (gmap string string) :=
  db_instrumentals.delete_many (fun _ => true) ;;
  seed_loop uuid4 utcnow 0 SAMPLE_INSTRUMENTALS ;;
  mret {[ "message" :=
            "Seeded " +:+ pretty (length SAMPLE_INSTRUMENTALS) +:+
            " instrumentals with audio URLs" ]}.

(** ** Vocabulary of the further properties *)

(** The cache on a user record never claims more than the store holds:
    a record with [is_subscribed = true] has an active row. *)
Definition cache_sound (d : DB) : Prop :=
  forall w, In w (users d) -> User.is_subscribed w = true ->
            has_active d (User.id w).

(** Every [uuid4] read of a [subscribe] in the execution differs from
    the ids stored when it is served. *)
Fixpoint fresh_uuids (qs : list request) (d : DB) : Prop :=
  match qs with
  | [] => True
  | q :: qs' =>
      match q with
      | Subscribe _ new_id _ _ =>
          ~ In new_id (map Subscription.id (subscriptions d))
      | _ => True
      end /\ fresh_uuids qs' (serve d q)
  end.

(** The user a request is about. *)
Definition target (q : request) : string :=
  match q with
  | Subscribe _ _ _ data => SubscriptionCreate.user_id data
  | GetStatus _ u => u
  | Restore u => u
  | Cancel u => u
  end.

(** The update that carries no field. *)
Definition empty_update : InstrumentalUpdate.t :=
  InstrumentalUpdate.mk None None None None None None None None None.

(** ** Sample stores

    A user with a lapsed (inactive) monthly subscription and a current
    one that expires at instant 100; the same user with only the lapsed
    subscription; and the first store with a stale cache on the user
    record. *)

Definition lapsed_row : Subscription.t :=
  {| Subscription.id := "s0"; Subscription.user_id := "u1";
     Subscription.is_active := false; Subscription.plan := "monthly";
     Subscription.price := 53%float; Subscription.subscribed_at := 0;
     Subscription.expires_at := Some 30 |}.

Definition current_row : Subscription.t :=
  {| Subscription.id := "s1"; Subscription.user_id := "u1";
     Subscription.is_active := true; Subscription.plan := "yearly";
     Subscription.price := 499%float; Subscription.subscribed_at := 40;
     Subscription.expires_at := Some 100 |}.

Definition user1 (cache : bool) : User.t :=
  {| User.id := "u1"; User.device_id := "device-1";
     User.is_subscribed := cache; User.created_at := 0 |}.

Definition user2 : User.t :=
  {| User.id := "u2"; User.device_id := "device-2";
     User.is_subscribed := false; User.created_at := 5 |}.

Definition subscribed_db : DB :=
  {| subscriptions := [lapsed_row; current_row];
     users := [user1 true; user2] |}.

Definition lapsed_db : DB :=
  {| subscriptions := [lapsed_row]; users := [user1 false; user2] |}.

Definition stale_db : DB :=
  {| subscriptions := [lapsed_row; current_row];
     users := [user1 false; user2] |}.

(** The store after two racing subscriptions of the same user: a second
    active row, which expires at instant 1000, stored before the
    current one. *)
Definition live_row : Subscription.t :=
  {| Subscription.id := "s2"; Subscription.user_id := "u1";
     Subscription.is_active := true; Subscription.plan := "monthly";
     Subscription.price := 53%float; Subscription.subscribed_at := 40;
     Subscription.expires_at := Some 1000 |}.

Definition duplicated_db : DB :=
  {| subscriptions := [live_row; current_row];
     users := [user1 true; user2] |}.

(** A small catalog: a free track with an audio file and a premium,
    featured track without one. *)

Definition track_a : Instrumental.t :=
  {| Instrumental.id := "t1"; Instrumental.title := "Morning Dhikr";
     Instrumental.mood := "Calm"; Instrumental.duration := 180;
     Instrumental.duration_formatted := "3:00";
     Instrumental.is_premium := false; Instrumental.is_featured := false;
     Instrumental.audio_url := Some "https://example.org/a.mp3";
     Instrumental.thumbnail_color := "#5A4A63";
     Instrumental.file_size := 3200000; Instrumental.created_at := 7 |}.

Definition track_b : Instrumental.t :=
  {| Instrumental.id := "t2"; Instrumental.title := "Night of Peace";
     Instrumental.mood := "Spiritual"; Instrumental.duration := 480;
     Instrumental.duration_formatted := "8:00";
     Instrumental.is_premium := true; Instrumental.is_featured := true;
     Instrumental.audio_url := None;
     Instrumental.thumbnail_color := "#2A3A4A";
     Instrumental.file_size := 0; Instrumental.created_at := 9 |}.

Definition sample_catalog : list Instrumental.t := [track_a; track_b].

(** An update that sends a title and a duration of zero. *)
Definition retitle : InstrumentalUpdate.t :=
  InstrumentalUpdate.mk (Some "Dawn") None (Some 0) None None None None None None.

(** Tactics that settle side conditions on concrete stores. *)

Ltac distinct_ids :=
  repeat constructor; simpl; intuition discriminate.

Ltac count_rows :=
  unfold at_most_one_active, active_rows; vm_compute; lia.

Ltac none_active :=
  intros ? Hin; simpl in Hin; intuition (subst; try reflexivity; try discriminate).

(** ** The handlers as plain functions of the database *)

Lemma subscribe_eq t_exp new_id t_sub data d :
  subscribe t_exp new_id t_sub data d =
  match Collection.find_one (active_of (SubscriptionCreate.user_id data))
          (subscriptions d) with
  | Some e => (e, d)
  | None =>
      let s :=
        {| Subscription.id := new_id;
           Subscription.user_id := SubscriptionCreate.user_id data;
           Subscription.is_active := true;
           Subscription.plan := SubscriptionCreate.plan data;
           Subscription.price :=
             if String.eqb (SubscriptionCreate.plan data) "yearly"
             then 499%float else 53%float;
           Subscription.subscribed_at := t_sub;
           Subscription.expires_at :=
             Some (if String.eqb (SubscriptionCreate.plan data) "yearly"
                   then t_exp + timedelta_days 365
                   else t_exp + timedelta_days 30) |} in
      (s, {| subscriptions := subscriptions d ++ [Subscription.stored s];
             users := Collection.update_one
                        (user_with_id (SubscriptionCreate.user_id data))
                        (set_subscribed true) (users d) |})
  end.
Proof.
  unfold subscribe, mbind, M_bind, bind, db.subscriptions.find_one.
  destruct (Collection.find_one _ _); [reflexivity|].
  destruct (String.eqb _ "yearly"); reflexivity.
Qed.

Lemma get_subscription_status_eq now u d :
  get_subscription_status now u d =
  match Collection.find_one (active_of u) (subscriptions d) with
  | None => ({[ "is_subscribed" := VBool false; "subscription" := VNone ]}, d)
  | Some sub =>
      if expired now sub then
        ({[ "is_subscribed" := VBool false; "subscription" := VNone ]},
         {| subscriptions :=
              Collection.update_one (sub_with_id (Subscription.id sub))
                (set_active false) (subscriptions d);
            users := Collection.update_one (user_with_id u)
                       (set_subscribed false) (users d) |})
      else
        ({[ "is_subscribed" := VBool true;
            "subscription" := VSubscription sub ]}, d)
  end.
Proof.
  unfold get_subscription_status, mbind, M_bind, bind, db.subscriptions.find_one.
  destruct (Collection.find_one _ _) as [sub|]; [|reflexivity].
  destruct (expired now sub); reflexivity.
Qed.

Lemma restore_purchase_eq u d :
  restore_purchase u d =
  (match Collection.find_one (active_of u) (subscriptions d) with
   | Some sub =>
       {[ "restored" := VBool true; "subscription" := VSubscription sub ]}
   | None =>
       {[ "restored" := VBool false;
          "message" := VStr "No active subscription found to restore" ]}
   end, d).
Proof.
  unfold restore_purchase, mbind, M_bind, bind, db.subscriptions.find_one.
  destruct (Collection.find_one _ _); reflexivity.
Qed.

Lemma cancel_subscription_eq u d :
  cancel_subscription u d =
  ({[ "message" := VStr "Subscription cancelled";
      "cancelled" :=
        VBool (0 <? Collection.modified_count (active_of u) (set_active false)
                      (subscriptions d))%nat ]},
   {| subscriptions :=
        Collection.update_many (active_of u) (set_active false) (subscriptions d);
      users := Collection.update_one (user_with_id u) (set_subscribed false)
                 (users d) |}).
Proof. reflexivity. Qed.

(** ** Facts about the store operations *)

Section CollectionFacts.
Context {A : Type}.
Implicit Types (flt : A -> bool) (p : Collection.patch A) (c : list A).

Lemma find_one_Some flt c r :
  Collection.find_one flt c = Some r -> In r c /\ flt r = true.
Proof. apply find_some. Qed.

Lemma find_one_None flt c :
  Collection.find_one flt c = None <-> (forall r, In r c -> flt r = false).
Proof.
  split; [apply find_none|].
  induction c as [|a c IH]; intros H; [reflexivity|].
  unfold Collection.find_one in *. simpl.
  rewrite (H a (or_introl eq_refl)). apply IH.
  intros r Hr. apply H. now right.
Qed.

(** With at most one matching document, [find_one] returns it. *)
Lemma find_one_the_only flt c r :
  (length (List.filter flt c) <= 1)%nat -> In r c -> flt r = true ->
  Collection.find_one flt c = Some r.
Proof.
  unfold Collection.find_one.
  induction c as [|a c IH]; simpl; intros Hlen Hin Hr; [contradiction|].
  destruct (flt a) eqn:Ha.
  - destruct Hin as [->|Hin]; [reflexivity|]. exfalso.
    assert (Hf : In r (List.filter flt c)) by (apply filter_In; auto).
    simpl in Hlen. destruct (List.filter flt c); [contradiction|simpl in Hlen; lia].
  - destruct Hin as [->|Hin]; [congruence|]. now apply IH.
Qed.

(** The first match of a collection is still the first match after an
    insertion. *)
Lemma find_one_insert_one flt (stored : A -> A) c d :
  Collection.find_one flt (Collection.insert_one stored d c) =
  match Collection.find_one flt c with
  | Some r => Some r
  | None => if flt (stored d) then Some (stored d) else None
  end.
Proof.
  unfold Collection.find_one, Collection.insert_one.
  induction c as [|a c IH]; simpl; [reflexivity|].
  destruct (flt a); [reflexivity|apply IH].
Qed.

Lemma update_one_no_match flt p c :
  (forall r, In r c -> flt r = false) -> Collection.update_one flt p c = c.
Proof.
  induction c as [|a c IH]; simpl; intros H; [reflexivity|].
  rewrite (H a (or_introl eq_refl)). f_equal. apply IH.
  intros r Hr. apply H. now right.
Qed.

Lemma length_update_one flt p c :
  length (Collection.update_one flt p c) = length c.
Proof.
  induction c as [|a c IH]; simpl; [reflexivity|].
  destruct (flt a); simpl; congruence.
Qed.

(** Row by row, [update_one] leaves a document alone or patches it. *)
Lemma update_one_lookup flt p c (i : nat) r :
  c !! i = Some r ->
  Collection.update_one flt p c !! i = Some r \/
  Collection.update_one flt p c !! i = Some (Collection.apply p r) /\ flt r = true.
Proof.
  revert i. induction c as [|a c IH]; intros i Hi; [discriminate|].
  simpl. destruct (flt a) eqn:Ha.
  - destruct i as [|i]; simpl in *; [|now left].
    injection Hi as ->. now right.
  - destruct i as [|i]; simpl in *; [now left|]. now apply IH.
Qed.

Lemma update_many_lookup flt p c (i : nat) r :
  c !! i = Some r ->
  Collection.update_many flt p c !! i =
  Some (if flt r then Collection.apply p r else r).
Proof.
  unfold Collection.update_many. intros Hi.
  rewrite list_lookup_fmap. now rewrite Hi.
Qed.

(** When the filter selects by a key and keys are unique, [update_one]
    patches exactly the document holding the key. *)
Lemma update_one_at {K} (key : A -> K) flt p l1 r l2 :
  List.NoDup (map key (l1 ++ r :: l2)) ->
  (forall x, flt x = true <-> key x = key r) ->
  Collection.update_one flt p (l1 ++ r :: l2) = l1 ++ Collection.apply p r :: l2.
Proof.
  intros Hnd Hk. induction l1 as [|a l1 IH]; simpl.
  - assert (Hr : flt r = true) by now apply Hk. now rewrite Hr.
  - simpl in Hnd. apply List.NoDup_cons_iff in Hnd as [Hni Hnd].
    destruct (flt a) eqn:Ha.
    + exfalso. apply Hni. apply Hk in Ha. rewrite Ha.
      apply in_map, in_elt.
    + f_equal. now apply IH.
Qed.

(** Under the same conditions it agrees with patching every document
    that holds the key. *)
Lemma update_one_unique_key {K} (key : A -> K) (k : K) flt p c :
  List.NoDup (map key c) ->
  (forall x, flt x = true <-> key x = k) ->
  Collection.update_one flt p c =
  map (fun d => if flt d then Collection.apply p d else d) c.
Proof.
  intros Hnd Hk. induction c as [|a c IH]; simpl; [reflexivity|].
  simpl in Hnd. apply List.NoDup_cons_iff in Hnd as [Hni Hnd].
  destruct (flt a) eqn:Ha.
  - f_equal. symmetry. rewrite <- (map_id c) at 2. apply map_ext_in.
    intros x Hx. destruct (flt x) eqn:Hfx; [|reflexivity].
    exfalso. apply Hni. apply Hk in Ha, Hfx. rewrite Ha, <- Hfx.
    now apply in_map.
  - f_equal. now apply IH.
Qed.
End CollectionFacts.

(** ** Facts about the queries of the engine *)

Lemma active_of_true u s :
  active_of u s = true <->
  Subscription.user_id s = u /\ Subscription.is_active s = true.
Proof.
  unfold active_of. rewrite andb_true_iff, String.eqb_eq.
  destruct (Subscription.is_active s); simpl; intuition congruence.
Qed.

Lemma active_of_inactive u s :
  Subscription.is_active s = false -> active_of u s = false.
Proof. unfold active_of. intros ->. apply andb_false_r. Qed.

Lemma active_of_other u s :
  Subscription.user_id s <> u -> active_of u s = false.
Proof.
  unfold active_of. intros H. apply String.eqb_neq in H. now rewrite H.
Qed.

Lemma sub_with_id_true i s : sub_with_id i s = true <-> Subscription.id s = i.
Proof. apply String.eqb_eq. Qed.

Lemma user_with_id_true i w : user_with_id i w = true <-> User.id w = i.
Proof. apply String.eqb_eq. Qed.

Lemma set_is_active_false_inactive s :
  Subscription.is_active s = false -> Subscription.set_is_active false s = s.
Proof. destruct s; simpl; intros ->; reflexivity. Qed.

Lemma find_active_None d u :
  Collection.find_one (active_of u) (subscriptions d) = None <-> no_active d u.
Proof.
  rewrite find_one_None. unfold no_active. split; intros H r Hr.
  - intros Hu. specialize (H r Hr).
    destruct (Subscription.is_active r) eqn:Ha; [|reflexivity].
    assert (active_of u r = true) by now apply active_of_true. congruence.
  - destruct (String.eqb_spec (Subscription.user_id r) u) as [Hu|Hu].
    + apply active_of_inactive. now apply H.
    + now apply active_of_other.
Qed.

Lemma find_active_Some d u r :
  Collection.find_one (active_of u) (subscriptions d) = Some r ->
  In r (subscriptions d) /\
  Subscription.user_id r = u /\ Subscription.is_active r = true.
Proof.
  intros H. apply find_one_Some in H as [Hin Ha].
  now apply active_of_true in Ha.
Qed.

Lemma has_active_find d u :
  has_active d u ->
  exists r, Collection.find_one (active_of u) (subscriptions d) = Some r.
Proof.
  intros (r & Hin & Hu & Ha).
  destruct (Collection.find_one _ _) as [r'|] eqn:Hf; [now exists r'|].
  apply find_active_None in Hf. specialize (Hf r Hin Hu). congruence.
Qed.

Lemma find_the_active d u r :
  at_most_one_active d u -> In r (subscriptions d) ->
  Subscription.user_id r = u -> Subscription.is_active r = true ->
  Collection.find_one (active_of u) (subscriptions d) = Some r.
Proof.
  intros H1 Hin Hu Ha. apply find_one_the_only; auto.
  now apply active_of_true.
Qed.

Lemma expired_true now s :
  expired now s = true <->
  exists e, Subscription.expires_at s = Some e /\ e < now.
Proof.
  unfold expired. destruct (Subscription.expires_at s) as [e|].
  - rewrite Z.ltb_lt. split; [now exists e|]. now intros (e' & [= <-] & H).
  - split; [discriminate|]. now intros (e' & [=] & _).
Qed.

Lemma expired_false now s :
  expired now s = false <->
  Subscription.expires_at s = None \/
  exists e, Subscription.expires_at s = Some e /\ now <= e.
Proof.
  unfold expired. destruct (Subscription.expires_at s) as [e|].
  - rewrite Z.ltb_ge. split.
    + intros H. right. now exists e.
    + intros [[=]|(e' & [= <-] & H)]. exact H.
  - split; [now left|reflexivity].
Qed.

(** ** The lazy expiry of [get_subscription_status] *)

(** C1, as the code has it.  The status check looks at one row, the
    one the store returns for the query, so the transition is that of
    the only active row.  In a store in which identifiers are unique
    and [u] has at most one active subscription, let [r] be the active
    row of [u].  If [expires_at] of [r] is set and earlier than the
    clock read [now], [get_subscription_status] answers
    [{is_subscribed: false, subscription: null}], the row [r] is stored
    with [is_active = false] and its other fields unchanged, every
    user record with id [u] is stored with [is_subscribed = false] and
    its other fields unchanged, and everything else is as it was.  If
    [r] has not expired (no expiry date, or one not before [now]) the
    answer is [{is_subscribed: true, subscription: r}] and nothing is
    written. *)
Theorem get_status_lazy_expiry (d : DB) (u : string) (now : datetime)
    (r : Subscription.t) :
  unique_ids d -> at_most_one_active d u ->
  In r (subscriptions d) ->
  Subscription.user_id r = u -> Subscription.is_active r = true ->
  (forall e, Subscription.expires_at r = Some e -> e < now ->
     exists l1 l2,
       subscriptions d = l1 ++ r :: l2 /\
       get_subscription_status now u d =
       ({[ "is_subscribed" := VBool false; "subscription" := VNone ]},
        {| subscriptions :=
             l1 ++ {| Subscription.id := Subscription.id r;
                      Subscription.user_id := Subscription.user_id r;
                      Subscription.is_active := false;
                      Subscription.plan := Subscription.plan r;
                      Subscription.price := Subscription.price r;
                      Subscription.subscribed_at := Subscription.subscribed_at r;
                      Subscription.expires_at := Subscription.expires_at r |}
                :: l2;
           users := map (fun w => if String.eqb (User.id w) u
                                  then {| User.id := User.id w;
                                          User.device_id := User.device_id w;
                                          User.is_subscribed := false;
                                          User.created_at := User.created_at w |}
                                  else w)
                        (users d) |})) /\
  (Subscription.expires_at r = None \/
   (exists e, Subscription.expires_at r = Some e /\ now <= e) ->
   get_subscription_status now u d =
   ({[ "is_subscribed" := VBool true; "subscription" := VSubscription r ]}, d)).
Proof.
  intros [Hsid Huid] Hone Hin Hu Ha.
  pose proof (find_the_active d u r Hone Hin Hu Ha) as Hfind.
  split.
  - intros e He Hlt.
    destruct (in_split _ _ Hin) as (l1 & l2 & Hsplit).
    exists l1, l2. split; [exact Hsplit|].
    rewrite get_subscription_status_eq, Hfind.
    assert (Hexp : expired now r = true) by (apply expired_true; eauto).
    rewrite Hexp. f_equal. f_equal.
    + rewrite Hsplit in *.
      apply (update_one_at Subscription.id); [exact Hsid|].
      intros x. apply sub_with_id_true.
    + apply (update_one_unique_key User.id u); [exact Huid|].
      intros x. apply user_with_id_true.
  - intros Hne. rewrite get_subscription_status_eq, Hfind.
    assert (Hexp : expired now r = false) by now apply expired_false.
    now rewrite Hexp.
Qed.

(** The same outcome in a store that holds several active rows of [u]
    (the race of concurrent subscriptions): the status check looks at the
    row the store returns for the query, the first one in storage order,
    and at no other. *)
Lemma get_status_on_found_row (d : DB) (u : string) (now : datetime)
    (r : Subscription.t) :
  unique_ids d ->
  Collection.find_one (active_of u) (subscriptions d) = Some r ->
  get_subscription_status now u d =
  if expired now r then
    ({[ "is_subscribed" := VBool false; "subscription" := VNone ]},
     {| subscriptions :=
          map (fun s => if String.eqb (Subscription.id s) (Subscription.id r)
                        then Subscription.set_is_active false s else s)
              (subscriptions d);
        users := map (fun w => if String.eqb (User.id w) u
                               then User.set_is_subscribed false w else w)
                     (users d) |})
  else
    ({[ "is_subscribed" := VBool true; "subscription" := VSubscription r ]}, d).
Proof.
  intros [Hsid Huid] Hfind. rewrite get_subscription_status_eq, Hfind.
  destruct (expired now r); [|reflexivity]. f_equal. f_equal.
  - apply (update_one_unique_key Subscription.id (Subscription.id r));
      [exact Hsid|]. intros x. apply sub_with_id_true.
  - apply (update_one_unique_key User.id u); [exact Huid|].
    intros x. apply user_with_id_true.
Qed.

(** ** [subscribe] *)

Lemma has_active_or_not d u : has_active d u \/ no_active d u.
Proof.
  destruct (Collection.find_one (active_of u) (subscriptions d)) as [r|] eqn:Hf.
  - left. exists r. now apply find_active_Some.
  - right. now apply find_active_None.
Qed.

Lemma subscribe_short_circuit t_exp new_id t_sub data d r :
  Collection.find_one (active_of (SubscriptionCreate.user_id data))
    (subscriptions d) = Some r ->
  subscribe t_exp new_id t_sub data d = (r, d).
Proof. intros H. now rewrite subscribe_eq, H. Qed.

(** After any [subscribe], the active subscription the store finds for
    the user is the one that was returned: the very record on the
    short-circuit path, the record as the store keeps it after an
    insertion. *)
Lemma subscribe_result_is_found t_exp new_id t_sub data d :
  exists r,
    Collection.find_one (active_of (SubscriptionCreate.user_id data))
      (subscriptions (snd (subscribe t_exp new_id t_sub data d))) = Some r /\
    (r = fst (subscribe t_exp new_id t_sub data d) \/
     r = Subscription.stored (fst (subscribe t_exp new_id t_sub data d))).
Proof.
  rewrite subscribe_eq.
  destruct (Collection.find_one _ (subscriptions d)) as [r|] eqn:Hf; simpl.
  - exists r. auto.
  - eexists. split; [|right; reflexivity].
    change (?l ++ [Subscription.stored ?s])
      with (Collection.insert_one Subscription.stored s l).
    rewrite find_one_insert_one, Hf.
    unfold active_of. simpl. now rewrite String.eqb_refl.
Qed.

(** C2.  If [u] already has a subscription row with [is_active = true],
    [subscribe] for any plan returns an existing active row of [u] and
    leaves the whole database as it was; when the active row is the only
    one, it is that row.  And whatever the database, a second
    [subscribe] right after a first one writes nothing and returns the
    same subscription, so the same id: the very record the first call
    returned when [u] had an active row, and, when the first call
    created the subscription, that record with its instants at the
    millisecond precision of the store. *)
Theorem subscribe_idempotent_while_active (d : DB) (u plan : string)
    (t_exp : datetime) (new_id : string) (t_sub : datetime) :
  (has_active d u ->
   (exists r, In r (subscriptions d) /\
              Subscription.user_id r = u /\ Subscription.is_active r = true /\
              subscribe t_exp new_id t_sub (SubscriptionCreate.mk u plan) d = (r, d)) /\
   (forall r, at_most_one_active d u -> In r (subscriptions d) ->
              Subscription.user_id r = u -> Subscription.is_active r = true ->
              subscribe t_exp new_id t_sub (SubscriptionCreate.mk u plan) d = (r, d))) /\
  (forall plan' t_exp' new_id' t_sub',
     let first := subscribe t_exp new_id t_sub (SubscriptionCreate.mk u plan) d in
     let second :=
       subscribe t_exp' new_id' t_sub' (SubscriptionCreate.mk u plan') (snd first) in
     Subscription.id (fst second) = Subscription.id (fst first) /\
     snd second = snd first /\
     (has_active d u -> fst second = fst first) /\
     (no_active d u ->
      fst second =
      {| Subscription.id := Subscription.id (fst first);
         Subscription.user_id := Subscription.user_id (fst first);
         Subscription.is_active := Subscription.is_active (fst first);
         Subscription.plan := Subscription.plan (fst first);
         Subscription.price := Subscription.price (fst first);
         Subscription.subscribed_at :=
           Subscription.subscribed_at (fst first) / 1000 * 1000;
         Subscription.expires_at :=
           option_map (fun t => t / 1000 * 1000)
             (Subscription.expires_at (fst first)) |})).
Proof.
  split.
  - intros Hact. split.
    + destruct (has_active_find d u Hact) as [r Hf].
      exists r. destruct (find_active_Some d u r Hf) as (Hin & Hu & Ha).
      repeat split; auto.
      exact (subscribe_short_circuit t_exp new_id t_sub
               (SubscriptionCreate.mk u plan) d r Hf).
    + intros r Hone Hin Hu Ha. apply subscribe_short_circuit. simpl.
      now apply find_the_active.
  - intros plan' t_exp' new_id' t_sub' first second.
    destruct (subscribe_result_is_found t_exp new_id t_sub
                (SubscriptionCreate.mk u plan) d) as (r & Hf & Hr).
    fold first in Hf, Hr.
    assert (Hsecond : second = (r, snd first)).
    { subst second. now apply subscribe_short_circuit. }
    rewrite Hsecond. cbn [fst snd].
    split; [destruct Hr as [->| ->]; reflexivity|].
    split; [reflexivity|]. split.
    + intros Hact. destruct (has_active_find d u Hact) as [r0 Hf0].
      pose proof (subscribe_short_circuit t_exp new_id t_sub
                    (SubscriptionCreate.mk u plan) d r0 Hf0) as Hfirst.
      fold first in Hfirst. rewrite Hfirst in Hf. cbn [snd] in Hf.
      cbn [SubscriptionCreate.user_id] in Hf. rewrite Hf0 in Hf.
      injection Hf as <-. now rewrite Hfirst.
    + intros Hno. apply find_active_None in Hno.
      assert (Hfirst : Collection.find_one (active_of u) (subscriptions (snd first)) =
                       Some (Subscription.stored (fst first))).
      { subst first. rewrite subscribe_eq. cbn [SubscriptionCreate.user_id].
        rewrite Hno. cbv zeta. cbn [fst snd subscriptions].
        change (?l ++ [Subscription.stored ?x])
          with (Collection.insert_one Subscription.stored x l).
        rewrite find_one_insert_one, Hno.
        unfold active_of. cbn. now rewrite String.eqb_refl. }
      cbn [SubscriptionCreate.user_id] in Hf. rewrite Hfirst in Hf.
      injection Hf as <-. reflexivity.
Qed.

(** C10.  On the short-circuit path of [subscribe] nothing is written:
    the database after the call is the database before it, so the user
    record the store finds for [u] is the same record, and a cached
    [is_subscribed = false] stays false. *)
Theorem subscribe_short_circuit_writes_nothing (d : DB) (u plan : string)
    (t_exp : datetime) (new_id : string) (t_sub : datetime) :
  has_active d u ->
  let d' := snd (subscribe t_exp new_id t_sub (SubscriptionCreate.mk u plan) d) in
  d' = d /\
  users d' = users d /\
  (forall w, Collection.find_one (user_with_id u) (users d) = Some w ->
             User.is_subscribed w = false ->
             exists w', Collection.find_one (user_with_id u) (users d') = Some w' /\
                        User.is_subscribed w' = false).
Proof.
  intros Hact d'.
  destruct (has_active_find d u Hact) as [r Hf].
  assert (Hd : d' = d).
  { subst d'.
    now rewrite (subscribe_short_circuit t_exp new_id t_sub
                   (SubscriptionCreate.mk u plan) d r Hf). }
  rewrite Hd. repeat split; auto. intros w Hw Hs. now exists w.
Qed.

(** C3.  If [u] has no active subscription (and user ids are unique),
    [subscribe] builds and returns a new subscription [s]: active, owned
    by [u], carrying the fresh id, the plan and the creation instant,
    with price and expiry following the plan, 499.0 and 365 days after
    the clock read for ["yearly"], 53.0 and 30 days after it for every
    other plan.  It appends one row to the collection, which is [s] as
    the store keeps it (the same fields, the two instants at
    millisecond precision, so an expiry less than a millisecond before
    the one of [s]), and afterwards every user record with id [u] has
    [is_subscribed = true], all else in the user collection being as
    before. *)
Theorem subscribe_creates_subscription (d : DB) (u plan : string)
    (t_exp : datetime) (new_id : string) (t_sub : datetime) :
  no_active d u ->
  List.NoDup (map User.id (users d)) ->
  exists s,
    subscribe t_exp new_id t_sub (SubscriptionCreate.mk u plan) d =
    (s, {| subscriptions :=
             subscriptions d ++
             [{| Subscription.id := new_id;
                 Subscription.user_id := u;
                 Subscription.is_active := true;
                 Subscription.plan := plan;
                 Subscription.price := Subscription.price s;
                 Subscription.subscribed_at := t_sub / 1000 * 1000;
                 Subscription.expires_at :=
                   option_map (fun t => t / 1000 * 1000)
                     (Subscription.expires_at s) |}];
           users := map (fun w => if String.eqb (User.id w) u
                                  then {| User.id := User.id w;
                                          User.device_id := User.device_id w;
                                          User.is_subscribed := true;
                                          User.created_at := User.created_at w |}
                                  else w)
                        (users d) |}) /\
    Subscription.id s = new_id /\
    Subscription.user_id s = u /\
    Subscription.is_active s = true /\
    Subscription.plan s = plan /\
    Subscription.subscribed_at s = t_sub /\
    (plan = "yearly" ->
     Subscription.price s = 499%float /\
     Subscription.expires_at s = Some (t_exp + 365 * 86400000000)) /\
    (plan <> "yearly" ->
     Subscription.price s = 53%float /\
     Subscription.expires_at s = Some (t_exp + 30 * 86400000000)) /\
    (forall e, Subscription.expires_at s = Some e ->
               e - 1000 < e / 1000 * 1000 <= e) /\
    (forall w,
       In w (users (snd (subscribe t_exp new_id t_sub
                           (SubscriptionCreate.mk u plan) d))) ->
       User.id w = u -> User.is_subscribed w = true).
Proof.
  intros Hno Hnd. apply find_active_None in Hno.
  assert (Husers :
    Collection.update_one (user_with_id u) (set_subscribed true) (users d) =
    map (fun w => if String.eqb (User.id w) u
                  then {| User.id := User.id w;
                          User.device_id := User.device_id w;
                          User.is_subscribed := true;
                          User.created_at := User.created_at w |}
                  else w) (users d)).
  { apply (update_one_unique_key User.id u); [exact Hnd|].
    intros x. apply user_with_id_true. }
  rewrite subscribe_eq. cbn [SubscriptionCreate.user_id SubscriptionCreate.plan].
  rewrite Hno. cbv zeta. rewrite Husers.
  eexists. split; [reflexivity|].
  cbn [Subscription.id Subscription.user_id Subscription.is_active
       Subscription.plan Subscription.subscribed_at Subscription.price
       Subscription.expires_at snd users].
  do 5 (split; [reflexivity|]). split; [|split; [|split]].
  - intros ->. split; reflexivity.
  - intros H. apply String.eqb_neq in H. rewrite H. split; reflexivity.
  - intros e _. pose proof (Z.mod_pos_bound e 1000 ltac:(lia)) as Hm.
    pose proof (Z.div_mod e 1000 ltac:(lia)) as Hd. lia.
  - intros w Hw Hid. apply in_map_iff in Hw as (w0 & <- & _).
    destruct (String.eqb (User.id w0) u) eqn:He; [reflexivity|].
    apply String.eqb_neq in He. contradiction.
Qed.

(** C9.  With no active subscription and a plan that is neither
    ["monthly"] nor ["yearly"], only the price and the expiry fall back
    to the monthly values: the subscription that is returned and the
    row that is stored (the same record with its instants at the
    millisecond precision of the store) both carry the plan string as
    it was sent. *)
Theorem subscribe_keeps_unrecognized_plan (d : DB) (u plan : string)
    (t_exp : datetime) (new_id : string) (t_sub : datetime) :
  no_active d u ->
  plan <> "monthly" -> plan <> "yearly" ->
  let s := fst (subscribe t_exp new_id t_sub (SubscriptionCreate.mk u plan) d) in
  let d' := snd (subscribe t_exp new_id t_sub (SubscriptionCreate.mk u plan) d) in
  subscriptions d' =
    subscriptions d ++
    [{| Subscription.id := new_id;
        Subscription.user_id := u;
        Subscription.is_active := true;
        Subscription.plan := plan;
        Subscription.price := 53%float;
        Subscription.subscribed_at := t_sub / 1000 * 1000;
        Subscription.expires_at :=
          Some ((t_exp + 30 * 86400000000) / 1000 * 1000) |}] /\
  Subscription.plan s = plan /\
  Subscription.plan s <> "monthly" /\
  Subscription.price s = 53%float /\
  Subscription.expires_at s = Some (t_exp + 30 * 86400000000).
Proof.
  intros Hno Hm Hy s d'. subst s d'.
  apply find_active_None in Hno.
  rewrite subscribe_eq. cbn [SubscriptionCreate.user_id SubscriptionCreate.plan].
  rewrite Hno. cbv zeta. cbn [fst snd subscriptions].
  apply String.eqb_neq in Hy. rewrite Hy. repeat split; auto.
Qed.

(** ** [restore_purchase] *)

(** C4, as the code has it.  [restore_purchase] writes nothing and takes
    no clock read, so it cannot check expiry: whenever [u] has a row
    with [is_active = true], whatever its [expires_at], the answer is
    [{restored: true, subscription: row}] for an active row of [u] (the
    row itself when it is the only active one); when [u] has no active
    row the answer is [{restored: false, message: "No active
    subscription found to restore"}], a dictionary without a
    [subscription] key. *)
Theorem restore_is_a_pure_read (d : DB) (u : string) :
  snd (restore_purchase u d) = d /\
  (has_active d u ->
   exists r, In r (subscriptions d) /\
             Subscription.user_id r = u /\ Subscription.is_active r = true /\
             fst (restore_purchase u d) =
             {[ "restored" := VBool true; "subscription" := VSubscription r ]}) /\
  (forall r, at_most_one_active d u -> In r (subscriptions d) ->
             Subscription.user_id r = u -> Subscription.is_active r = true ->
             fst (restore_purchase u d) =
             {[ "restored" := VBool true; "subscription" := VSubscription r ]}) /\
  (no_active d u ->
   fst (restore_purchase u d) =
   {[ "restored" := VBool false;
      "message" := VStr "No active subscription found to restore" ]} /\
   fst (restore_purchase u d) !! "subscription" = None).
Proof.
  rewrite restore_purchase_eq. simpl. split; [reflexivity|]. split; [|split].
  - intros Hact. destruct (has_active_find d u Hact) as [r Hf].
    exists r. destruct (find_active_Some d u r Hf) as (Hin & Hu & Ha).
    rewrite Hf. auto.
  - intros r Hone Hin Hu Ha. now rewrite (find_the_active d u r Hone Hin Hu Ha).
  - intros Hno. apply find_active_None in Hno. rewrite Hno.
    split; reflexivity.
Qed.

(** ** [cancel_subscription] *)

Lemma cancel_rows u c :
  Collection.update_many (active_of u) (set_active false) c =
  map (fun s => if String.eqb (Subscription.user_id s) u
                then Subscription.set_is_active false s else s) c.
Proof.
  unfold Collection.update_many. apply map_ext. intros s.
  unfold active_of. simpl.
  destruct (String.eqb (Subscription.user_id s) u); simpl; [|reflexivity].
  destruct (Subscription.is_active s) eqn:Ha; simpl; [reflexivity|].
  symmetry. now apply set_is_active_false_inactive.
Qed.

Lemma cancel_modified_count u c :
  Collection.modified_count (active_of u) (set_active false) c =
  length (List.filter (active_of u) c).
Proof.
  unfold Collection.modified_count. f_equal. apply filter_ext.
  intros s. unfold active_of. simpl.
  destruct (Subscription.is_active s); simpl; [apply andb_true_r|].
  now rewrite !andb_false_r.
Qed.

Lemma no_active_filter d u : no_active d u <-> active_rows u d = [].
Proof.
  unfold active_rows. rewrite <- find_active_None, find_one_None. split.
  - intros H. destruct (List.filter _ _) as [|x l] eqn:Hf; [reflexivity|].
    assert (Hx : In x (List.filter (active_of u) (subscriptions d)))
      by (rewrite Hf; now left).
    apply filter_In in Hx as [Hin Hx]. rewrite (H x Hin) in Hx. discriminate.
  - intros Hf r Hr. destruct (active_of u r) eqn:Ha; [|reflexivity].
    assert (Hx : In r (List.filter (active_of u) (subscriptions d)))
      by (apply filter_In; auto).
    rewrite Hf in Hx. contradiction.
Qed.

Lemma deactivated_not_active v s :
  active_of v (Subscription.set_is_active false s) = false.
Proof. now apply active_of_inactive. Qed.

(** C5.  After [cancel_subscription] every row of [u] is stored with
    [is_active = false] (the rows of other users and every other field
    are untouched), so no active row of [u] remains, however many there
    were; every user record with id [u] is stored with
    [is_subscribed = false], whether or not a row was active, the rest
    of the user collection being untouched; and it answers [cancelled: true] when [u] had an active row,
    in which case the subscriptions collection changed, and
    [cancelled: false] when it had none, in which case the collection is
    exactly as before. *)
Theorem cancel_deactivates_all (d : DB) (u : string) :
  List.NoDup (map User.id (users d)) ->
  let resp := fst (cancel_subscription u d) in
  let d' := snd (cancel_subscription u d) in
  subscriptions d' =
    map (fun s => if String.eqb (Subscription.user_id s) u
                  then {| Subscription.id := Subscription.id s;
                          Subscription.user_id := Subscription.user_id s;
                          Subscription.is_active := false;
                          Subscription.plan := Subscription.plan s;
                          Subscription.price := Subscription.price s;
                          Subscription.subscribed_at := Subscription.subscribed_at s;
                          Subscription.expires_at := Subscription.expires_at s |}
                  else s)
        (subscriptions d) /\
  active_rows u d' = [] /\
  (forall s, In s (subscriptions d') -> Subscription.user_id s = u ->
             Subscription.is_active s = false) /\
  users d' =
    map (fun w => if String.eqb (User.id w) u
                  then {| User.id := User.id w;
                          User.device_id := User.device_id w;
                          User.is_subscribed := false;
                          User.created_at := User.created_at w |}
                  else w) (users d) /\
  (forall w, In w (users d') -> User.id w = u -> User.is_subscribed w = false) /\
  (has_active d u ->
   resp = {[ "message" := VStr "Subscription cancelled";
             "cancelled" := VBool true ]} /\
   subscriptions d' <> subscriptions d) /\
  (no_active d u ->
   resp = {[ "message" := VStr "Subscription cancelled";
             "cancelled" := VBool false ]} /\
   subscriptions d' = subscriptions d).
Proof.
  intros Hnd resp d'. subst resp d'. rewrite cancel_subscription_eq.
  cbn [fst snd subscriptions users]. rewrite cancel_modified_count, cancel_rows.
  assert (Hrows : forall r,
    In r (map (fun s => if String.eqb (Subscription.user_id s) u
                        then Subscription.set_is_active false s else s)
              (subscriptions d)) ->
    Subscription.user_id r = u -> Subscription.is_active r = false).
  { intros r Hr Hu. apply in_map_iff in Hr as (s & <- & Hs).
    destruct (String.eqb (Subscription.user_id s) u) eqn:He; [reflexivity|].
    apply String.eqb_neq in He. contradiction. }
  assert (Husers :
    Collection.update_one (user_with_id u) (set_subscribed false) (users d) =
    map (fun w => if String.eqb (User.id w) u
                  then {| User.id := User.id w;
                          User.device_id := User.device_id w;
                          User.is_subscribed := false;
                          User.created_at := User.created_at w |}
                  else w) (users d)).
  { apply (update_one_unique_key User.id u); [exact Hnd|].
    intros x. apply user_with_id_true. }
  split; [reflexivity|]. split; [|split; [|split; [|split; [|split]]]].
  - apply no_active_filter. intros r Hr Hu. now apply Hrows.
  - exact Hrows.
  - exact Husers.
  - rewrite Husers. intros w Hw Hid. apply in_map_iff in Hw as (w0 & <- & _).
    destruct (String.eqb (User.id w0) u) eqn:He; [reflexivity|].
    apply String.eqb_neq in He. contradiction.
  - intros (r & Hin & Hu & Ha). split.
    + assert (Hf : In r (List.filter (active_of u) (subscriptions d)))
        by (apply filter_In; split; [assumption|now apply active_of_true]).
      destruct (List.filter _ _); [contradiction|reflexivity].
    + intros Heq. rewrite <- (map_id (subscriptions d)) in Heq at 2.
      pose proof (proj1 map_ext_in_iff Heq r Hin) as Hr.
      cbv beta in Hr. apply String.eqb_eq in Hu. rewrite Hu in Hr.
      apply (f_equal Subscription.is_active) in Hr. simpl in Hr. congruence.
  - intros Hno. split.
    + apply no_active_filter in Hno. unfold active_rows in Hno. now rewrite Hno.
    + rewrite <- (map_id (subscriptions d)) at 2. apply map_ext_in.
      intros s Hs. destruct (String.eqb_spec (Subscription.user_id s) u) as [Hu|Hu].
      * apply set_is_active_false_inactive. now apply Hno.
      * reflexivity.
Qed.

(** ** Users without a subscription *)

(** C6, as the code has it.  For a user id without an active
    subscription row (no row at all, only inactive rows, or an id that
    no user record carries: nothing is assumed about [users]) the three
    handlers answer without an error: [get_subscription_status] with
    [{is_subscribed: false, subscription: null}] and no write,
    [restore_purchase] with [{restored: false, message: ...}] and no
    write, [cancel_subscription] with [cancelled: false] and an
    unchanged subscriptions collection. *)
Theorem no_subscription_is_not_an_error (d : DB) (u : string) (now : datetime) :
  no_active d u ->
  get_subscription_status now u d =
    ({[ "is_subscribed" := VBool false; "subscription" := VNone ]}, d) /\
  restore_purchase u d =
    ({[ "restored" := VBool false;
        "message" := VStr "No active subscription found to restore" ]}, d) /\
  fst (cancel_subscription u d) =
    {[ "message" := VStr "Subscription cancelled"; "cancelled" := VBool false ]} /\
  subscriptions (snd (cancel_subscription u d)) = subscriptions d.
Proof.
  intros Hno. pose proof (proj2 (find_active_None d u) Hno) as Hf.
  rewrite get_subscription_status_eq, restore_purchase_eq, Hf.
  split; [reflexivity|]. split; [reflexivity|].
  rewrite cancel_subscription_eq. cbn [fst snd subscriptions].
  rewrite cancel_modified_count, cancel_rows. split.
  - apply no_active_filter in Hno. unfold active_rows in Hno. now rewrite Hno.
  - rewrite <- (map_id (subscriptions d)) at 2. apply map_ext_in.
    intros s Hs. destruct (String.eqb_spec (Subscription.user_id s) u) as [Hu|Hu].
    + apply set_is_active_false_inactive. now apply Hno.
    + reflexivity.
Qed.

(** ** The relationship invariant *)

Lemma update_one_deactivate_le v flt c :
  (length (List.filter (active_of v)
             (Collection.update_one flt (set_active false) c))
   <= length (List.filter (active_of v) c))%nat.
Proof.
  induction c as [|a c IH]; simpl; [lia|].
  destruct (flt a); simpl.
  - rewrite deactivated_not_active. destruct (active_of v a); simpl; lia.
  - destruct (active_of v a); simpl; lia.
Qed.

Lemma update_many_deactivate_le v flt c :
  (length (List.filter (active_of v)
             (Collection.update_many flt (set_active false) c))
   <= length (List.filter (active_of v) c))%nat.
Proof.
  unfold Collection.update_many.
  induction c as [|a c IH]; cbn [List.map List.filter length]; [lia|].
  destruct (flt a); cbn [Collection.apply set_active] in IH |- *.
  - rewrite deactivated_not_active.
    destruct (active_of v a); cbn [length]; lia.
  - destruct (active_of v a); cbn [length]; lia.
Qed.

Lemma serve_preserves_at_most_one d q :
  (forall u, at_most_one_active d u) ->
  forall u, at_most_one_active (serve d q) u.
Proof.
  intros Hinv v. specialize (Hinv v). unfold at_most_one_active, active_rows in *.
  destruct q as [t_exp new_id t_sub data|now u|u|u]; cbn [serve].
  - rewrite subscribe_eq.
    destruct (Collection.find_one _ _) eqn:Hf; simpl; [exact Hinv|].
    rewrite List.filter_app, List.length_app. simpl.
    destruct (active_of v _) eqn:Hv; simpl; [|lia].
    apply active_of_true in Hv as [Hv _]. simpl in Hv. subst v.
    apply find_active_None, no_active_filter in Hf.
    unfold active_rows in Hf. rewrite Hf. simpl. lia.
  - rewrite get_subscription_status_eq.
    destruct (Collection.find_one _ _) as [sub|]; simpl; [|exact Hinv].
    destruct (expired now sub); simpl; [|exact Hinv].
    etransitivity; [apply update_one_deactivate_le|exact Hinv].
  - rewrite restore_purchase_eq. exact Hinv.
  - rewrite cancel_subscription_eq. simpl.
    etransitivity; [apply update_many_deactivate_le|exact Hinv].
Qed.

Lemma serve_all_preserves_at_most_one qs d :
  (forall u, at_most_one_active d u) ->
  forall u, at_most_one_active (serve_all qs d) u.
Proof.
  revert d. induction qs as [|q qs IH]; intros d Hinv; [exact Hinv|].
  simpl. apply IH. now apply serve_preserves_at_most_one.
Qed.

(** C7.  In a sequential execution of entitlement requests that starts
    from a store without subscriptions (and with any users), every user
    has at most one active subscription row after every request, and so
    in particular at the moment each [subscribe] completes. *)
Theorem at_most_one_active_when_subscribe_completes (us : list User.t)
    (qs : list request) (u : string) :
  at_most_one_active (serve_all qs {| subscriptions := []; users := us |}) u /\
  (forall t_exp new_id t_sub data,
     at_most_one_active
       (snd (subscribe t_exp new_id t_sub data
               (serve_all qs {| subscriptions := []; users := us |}))) u).
Proof.
  assert (Hall : forall v,
            at_most_one_active (serve_all qs {| subscriptions := []; users := us |}) v).
  { apply serve_all_preserves_at_most_one. intros v.
    unfold at_most_one_active, active_rows. simpl. lia. }
  split; [apply Hall|].
  intros t_exp new_id t_sub data.
  exact (serve_preserves_at_most_one _ (Subscribe t_exp new_id t_sub data) Hall u).
Qed.

(** ** Identifiers stay unique

    A request whose [uuid4] read is not the id of a stored subscription
    keeps identifiers unique, so the stores reached by serving such
    requests satisfy both conditions under which the expiry transition
    was described. *)

Lemma map_key_update_one {A K} (key : A -> K) flt (p : Collection.patch A) c :
  (forall x, key (Collection.apply p x) = key x) ->
  map key (Collection.update_one flt p c) = map key c.
Proof.
  intros Hk. induction c as [|a c IH]; simpl; [reflexivity|].
  destruct (flt a); simpl; [now rewrite Hk|now rewrite IH].
Qed.

Lemma map_key_update_many {A K} (key : A -> K) flt (p : Collection.patch A) c :
  (forall x, key (Collection.apply p x) = key x) ->
  map key (Collection.update_many flt p c) = map key c.
Proof.
  intros Hk. unfold Collection.update_many. rewrite map_map.
  apply map_ext. intros x. now destruct (flt x).
Qed.

Lemma serve_preserves_unique_ids d q :
  unique_ids d ->
  match q with
  | Subscribe _ new_id _ _ => ~ In new_id (map Subscription.id (subscriptions d))
  | _ => True
  end ->
  unique_ids (serve d q).
Proof.
  intros [Hs Hu] Hfresh. unfold unique_ids.
  destruct q as [t_exp new_id t_sub data|now u|u|u]; cbn [serve].
  - rewrite subscribe_eq.
    destruct (Collection.find_one _ _); cbn [snd subscriptions users]; [now split|].
    split.
    + rewrite map_app. cbn [map Subscription.id].
      apply List.NoDup_app; [exact Hs|repeat constructor; intros []|].
      intros a Ha [<-|[]]. contradiction.
    + now rewrite (map_key_update_one User.id).
  - rewrite get_subscription_status_eq.
    destruct (Collection.find_one _ _) as [sub|]; [|now split].
    destruct (expired now sub); cbn [snd subscriptions users]; [|now split].
    now rewrite (map_key_update_one Subscription.id),
                (map_key_update_one User.id).
  - rewrite restore_purchase_eq. now split.
  - rewrite cancel_subscription_eq. cbn [snd subscriptions users].
    now rewrite (map_key_update_many Subscription.id),
                (map_key_update_one User.id).
Qed.

(** ** One-way deactivation *)

(** A request leaves each stored row as it is or deactivates it. *)
Lemma serve_row d q (i : nat) r :
  subscriptions d !! i = Some r ->
  subscriptions (serve d q) !! i = Some r \/
  subscriptions (serve d q) !! i = Some (Subscription.set_is_active false r).
Proof.
  intros Hi. destruct q as [t_exp new_id t_sub data|now u|u|u]; cbn [serve].
  - rewrite subscribe_eq.
    destruct (Collection.find_one _ _); simpl; [now left|].
    left. rewrite lookup_app_l; [exact Hi|]. now apply lookup_lt_Some in Hi.
  - rewrite get_subscription_status_eq.
    destruct (Collection.find_one _ _) as [sub|]; simpl; [|now left].
    destruct (expired now sub); simpl; [|now left].
    destruct (update_one_lookup (sub_with_id (Subscription.id sub))
                (set_active false) _ i r Hi) as [H|[H _]]; auto.
  - rewrite restore_purchase_eq. now left.
  - rewrite cancel_subscription_eq. simpl.
    rewrite (update_many_lookup _ _ _ i r Hi).
    destruct (active_of u r); auto.
Qed.

Lemma serve_all_row qs d (i : nat) r :
  subscriptions d !! i = Some r ->
  subscriptions (serve_all qs d) !! i = Some r \/
  subscriptions (serve_all qs d) !! i = Some (Subscription.set_is_active false r).
Proof.
  revert d r. induction qs as [|q qs IH]; intros d r Hi; [now left|].
  simpl. destruct (serve_row d q i r Hi) as [H|H].
  - now apply IH.
  - destruct (IH _ _ H) as [H'|H']; right; exact H'.
Qed.

(** C8.  Whatever requests are served, a stored subscription row stays
    where it is and is either untouched or differs from the original
    only by [is_active] having become false; a row that is inactive is
    never changed again, so never reactivated.  A [subscribe] for a user
    without an active row keeps every stored row and appends a new row
    carrying the fresh id. *)
Theorem deactivation_is_terminal (qs : list request) (d : DB) :
  (forall (i : nat) r,
     subscriptions d !! i = Some r ->
     (subscriptions (serve_all qs d) !! i = Some r \/
      subscriptions (serve_all qs d) !! i =
        Some (Subscription.set_is_active false r)) /\
     (Subscription.is_active r = false ->
      subscriptions (serve_all qs d) !! i = Some r)) /\
  (forall t_exp new_id t_sub u plan,
     no_active d u ->
     exists s,
       subscriptions (serve d (Subscribe t_exp new_id t_sub
                                 (SubscriptionCreate.mk u plan))) =
         subscriptions d ++ [s] /\
       Subscription.id s = new_id /\ Subscription.is_active s = true).
Proof.
  split.
  - intros i r Hi. split; [now apply serve_all_row|].
    intros Ha. destruct (serve_all_row qs d i r Hi) as [H|H]; [exact H|].
    now rewrite set_is_active_false_inactive in H.
  - intros t_exp new_id t_sub u plan Hno. apply find_active_None in Hno.
    simpl. rewrite subscribe_eq. simpl. rewrite Hno. simpl.
    eexists. split; [reflexivity|]. split; reflexivity.
Qed.

(** ** The claims on the sample stores *)

(** C1, as stated, fails where a user has two active rows.  The
    current row of the duplicated store is active and expired at
    instant 200, yet the status check, which looks at the first active
    row only, answers subscribed and writes nothing: the expired row
    stays active. *)
Lemma get_status_duplicate_active_counterexample :
  unique_ids duplicated_db /\
  In current_row (subscriptions duplicated_db) /\
  Subscription.user_id current_row = "u1" /\
  Subscription.is_active current_row = true /\
  Subscription.expires_at current_row = Some 100 /\
  100 < 200 /\
  get_subscription_status 200 "u1" duplicated_db =
    ({[ "is_subscribed" := VBool true; "subscription" := VSubscription live_row ]},
     duplicated_db) /\
  fst (get_subscription_status 200 "u1" duplicated_db) <>
    {[ "is_subscribed" := VBool false; "subscription" := VNone ]} /\
  In current_row (subscriptions (snd (get_subscription_status 200 "u1" duplicated_db))).
Proof.
  split; [split; distinct_ids|].
  split; [right; left; reflexivity|].
  do 3 (split; [reflexivity|]). split; [reflexivity|].
  split; [reflexivity|]. split.
  - intros H.
    apply (f_equal (fun m : gmap string value => m !! "is_subscribed")) in H.
    vm_compute in H. discriminate.
  - right. left. reflexivity.
Qed.

(** Status at instant 200 expires the current row of the sample store
    and resets the flag of its user; status at instant 50 reports the
    row. *)
Lemma get_status_lazy_expiry_witness :
  get_subscription_status 200 "u1" subscribed_db =
    ({[ "is_subscribed" := VBool false; "subscription" := VNone ]},
     {| subscriptions :=
          [lapsed_row;
           {| Subscription.id := "s1"; Subscription.user_id := "u1";
              Subscription.is_active := false; Subscription.plan := "yearly";
              Subscription.price := 499%float; Subscription.subscribed_at := 40;
              Subscription.expires_at := Some 100 |}];
        users := [user1 false; user2] |}) /\
  get_subscription_status 50 "u1" subscribed_db =
  ({[ "is_subscribed" := VBool true;
      "subscription" := VSubscription current_row ]}, subscribed_db).
Proof.
  assert (Hu : unique_ids subscribed_db) by (split; distinct_ids).
  assert (Hone : at_most_one_active subscribed_db "u1") by count_rows.
  assert (Hin : In current_row (subscriptions subscribed_db))
    by (right; left; reflexivity).
  split.
  - destruct (proj1 (get_status_lazy_expiry subscribed_db "u1" 200 current_row
                       Hu Hone Hin eq_refl eq_refl) 100 eq_refl eq_refl)
      as (l1 & l2 & Hsplit & Hget).
    rewrite Hget. f_equal. f_equal.
    destruct l1 as [|a [|b l1]]; cbn in Hsplit.
    + discriminate Hsplit.
    + injection Hsplit as <- <-. reflexivity.
    + injection Hsplit as _ _ Hrest. now destruct l1.
  - apply (proj2 (get_status_lazy_expiry subscribed_db "u1" 50 current_row
                    Hu Hone Hin eq_refl eq_refl)).
    right. exists 100. split; [reflexivity|lia].
Defined.

Lemma subscribe_idempotent_while_active_witness :
  subscribe 60 "s2" 61 (SubscriptionCreate.mk "u1" "monthly") subscribed_db =
  (current_row, subscribed_db).
Proof.
  assert (Hact : has_active subscribed_db "u1").
  { exists current_row. split; [right; left; reflexivity|split; reflexivity]. }
  apply (proj2 (proj1 (subscribe_idempotent_while_active subscribed_db "u1"
                         "monthly" 60 "s2" 61) Hact) current_row).
  - count_rows.
  - right; left; reflexivity.
  - reflexivity.
  - reflexivity.
Defined.

Lemma subscribe_short_circuit_writes_nothing_witness :
  snd (subscribe 60 "s2" 61 (SubscriptionCreate.mk "u1" "yearly") stale_db) =
  stale_db /\
  exists w', Collection.find_one (user_with_id "u1") (users stale_db) = Some w' /\
             User.is_subscribed w' = false.
Proof.
  assert (Hact : has_active stale_db "u1").
  { exists current_row. split; [right; left; reflexivity|split; reflexivity]. }
  destruct (subscribe_short_circuit_writes_nothing stale_db "u1" "yearly"
              60 "s2" 61 Hact) as (Hd & Hus & Hw).
  split; [exact Hd|].
  destruct (Hw (user1 false) eq_refl eq_refl) as (w' & Hf & Hs).
  exists w'. rewrite Hus in Hf. now split.
Defined.

Lemma subscribe_creates_subscription_witness :
  exists s,
    fst (subscribe 60 "s2" 61 (SubscriptionCreate.mk "u1" "yearly") lapsed_db) = s /\
    Subscription.price s = 499%float /\
    Subscription.expires_at s = Some (60 + 365 * 86400000000) /\
    (forall w,
       In w (users (snd (subscribe 60 "s2" 61
                           (SubscriptionCreate.mk "u1" "yearly") lapsed_db))) ->
       User.id w = "u1" -> User.is_subscribed w = true).
Proof.
  assert (Hno : no_active lapsed_db "u1") by none_active.
  assert (Hnd : List.NoDup (map User.id (users lapsed_db))) by distinct_ids.
  destruct (subscribe_creates_subscription lapsed_db "u1" "yearly" 60 "s2" 61
              Hno Hnd) as (s & Heq & _ & _ & _ & _ & _ & Hy & _ & _ & Hw).
  exists s. split; [now rewrite Heq|].
  destruct (Hy eq_refl) as [Hp He]. auto.
Defined.

Lemma subscribe_keeps_unrecognized_plan_witness :
  let s := fst (subscribe 60 "s2" 61 (SubscriptionCreate.mk "u1" "weekly") lapsed_db) in
  let d' := snd (subscribe 60 "s2" 61 (SubscriptionCreate.mk "u1" "weekly") lapsed_db) in
  subscriptions d' =
    subscriptions lapsed_db ++
    [{| Subscription.id := "s2";
        Subscription.user_id := "u1";
        Subscription.is_active := true;
        Subscription.plan := "weekly";
        Subscription.price := 53%float;
        Subscription.subscribed_at := 61 / 1000 * 1000;
        Subscription.expires_at :=
          Some ((60 + 30 * 86400000000) / 1000 * 1000) |}] /\
  Subscription.plan s = "weekly" /\
  Subscription.plan s <> "monthly" /\
  Subscription.price s = 53%float /\
  Subscription.expires_at s = Some (60 + 30 * 86400000000).
Proof.
  apply (subscribe_keeps_unrecognized_plan lapsed_db "u1" "weekly" 60 "s2" 61).
  - none_active.
  - discriminate.
  - discriminate.
Defined.

(** C4, as stated, fails: without an active subscription the answer of
    [restore_purchase] is not [{restored: false, subscription: null}]. *)
Lemma restore_negative_answer_counterexample :
  no_active lapsed_db "u1" /\
  fst (restore_purchase "u1" lapsed_db) <>
  {[ "restored" := VBool false; "subscription" := VNone ]}.
Proof.
  split; [none_active|].
  intros H. apply (f_equal (fun m : gmap string value => m !! "subscription")) in H.
  vm_compute in H. discriminate.
Qed.

Lemma restore_is_a_pure_read_witness :
  snd (restore_purchase "u1" subscribed_db) = subscribed_db /\
  fst (restore_purchase "u1" subscribed_db) =
    {[ "restored" := VBool true; "subscription" := VSubscription current_row ]} /\
  expired 200 current_row = true /\
  fst (restore_purchase "u1" lapsed_db) =
    {[ "restored" := VBool false;
       "message" := VStr "No active subscription found to restore" ]}.
Proof.
  destruct (restore_is_a_pure_read subscribed_db "u1") as (Hd & _ & Hr & _).
  destruct (restore_is_a_pure_read lapsed_db "u1") as (_ & _ & _ & Hn).
  split; [exact Hd|]. split; [|split; [reflexivity|]].
  - apply Hr; [count_rows|right; left; reflexivity|reflexivity|reflexivity].
  - apply Hn. none_active.
Defined.

Lemma cancel_deactivates_all_witness :
  fst (cancel_subscription "u1" subscribed_db) =
    {[ "message" := VStr "Subscription cancelled"; "cancelled" := VBool true ]} /\
  active_rows "u1" (snd (cancel_subscription "u1" subscribed_db)) = [] /\
  (forall w, In w (users (snd (cancel_subscription "u1" subscribed_db))) ->
             User.id w = "u1" -> User.is_subscribed w = false) /\
  fst (cancel_subscription "u1" lapsed_db) =
    {[ "message" := VStr "Subscription cancelled"; "cancelled" := VBool false ]}.
Proof.
  assert (H1 : List.NoDup (map User.id (users subscribed_db))) by distinct_ids.
  assert (H2 : List.NoDup (map User.id (users lapsed_db))) by distinct_ids.
  destruct (cancel_deactivates_all subscribed_db "u1" H1)
    as (_ & Hz & _ & _ & Hw & Hy & _).
  destruct (cancel_deactivates_all lapsed_db "u1" H2)
    as (_ & _ & _ & _ & _ & _ & Hn).
  split; [|split; [exact Hz|split; [exact Hw|]]].
  - apply Hy. exists current_row.
    split; [right; left; reflexivity|split; reflexivity].
  - apply Hn. none_active.
Defined.

(** C6, as stated, fails: for an id that no user record and no
    subscription carries, the answer of [restore_purchase] has no
    [subscription] entry. *)
Lemma unknown_user_answers_counterexample :
  ~ (fst (get_subscription_status 0 "ghost" empty_db) =
       {[ "is_subscribed" := VBool false; "subscription" := VNone ]} /\
     fst (restore_purchase "ghost" empty_db) =
       {[ "restored" := VBool false; "subscription" := VNone ]} /\
     fst (cancel_subscription "ghost" empty_db) !! "cancelled" =
       Some (VBool false)).
Proof.
  intros (_ & H & _).
  apply (f_equal (fun m : gmap string value => m !! "subscription")) in H.
  vm_compute in H. discriminate.
Qed.

(** No foreign-key check: an id that no user record carries can hold an
    active subscription, and is then reported as subscribed. *)
Example subscription_without_user_record :
  fst (get_subscription_status 1 "ghost"
         (snd (subscribe 0 "s9" 0 (SubscriptionCreate.mk "ghost" "monthly")
                 empty_db))) !! "is_subscribed" = Some (VBool true).
Proof. vm_compute. reflexivity. Qed.

Lemma no_subscription_is_not_an_error_witness :
  get_subscription_status 0 "ghost" subscribed_db =
    ({[ "is_subscribed" := VBool false; "subscription" := VNone ]}, subscribed_db) /\
  restore_purchase "ghost" subscribed_db =
    ({[ "restored" := VBool false;
        "message" := VStr "No active subscription found to restore" ]},
     subscribed_db) /\
  fst (cancel_subscription "ghost" subscribed_db) =
    {[ "message" := VStr "Subscription cancelled"; "cancelled" := VBool false ]} /\
  subscriptions (snd (cancel_subscription "ghost" subscribed_db)) =
    subscriptions subscribed_db.
Proof.
  apply (no_subscription_is_not_an_error subscribed_db "ghost" 0).
  none_active.
Defined.

(** The lapsed row of the sample store survives a status check that
    expires the current row, a cancellation and a new subscription. *)
Lemma deactivation_is_terminal_witness :
  subscriptions
    (serve_all [GetStatus 200 "u1"; Cancel "u1";
                Subscribe 300 "s2" 301 (SubscriptionCreate.mk "u1" "monthly")]
       subscribed_db) !! 0%nat = Some lapsed_row.
Proof.
  apply (proj1 (deactivation_is_terminal
                  [GetStatus 200 "u1"; Cancel "u1";
                   Subscribe 300 "s2" 301 (SubscriptionCreate.mk "u1" "monthly")]
                  subscribed_db) 0%nat lapsed_row); reflexivity.
Defined.

(** * Further properties of the service *)

(** ** The identity service *)

Lemma create_or_get_user_eq new_id now data d :
  create_or_get_user new_id now data d =
  match Collection.find_one (user_with_device (UserCreate.device_id data))
          (users d) with
  | Some e => (e, d)
  | None =>
      let w := {| User.id := new_id;
                  User.device_id := UserCreate.device_id data;
                  User.is_subscribed := false;
                  User.created_at := now |} in
      (w, {| subscriptions := subscriptions d;
             users := users d ++ [User.stored w] |})
  end.
Proof.
  unfold create_or_get_user, mbind, M_bind, bind, db_users.find_one.
  destruct (Collection.find_one _ _); reflexivity.
Qed.

Lemma get_user_eq dev d :
  get_user dev d =
  (match Collection.find_one (user_with_device dev) (users d) with
   | None => HTTPException 404 "User not found"
   | Some w => Return w
   end, d).
Proof.
  unfold get_user, mbind, M_bind, bind, db_users.find_one.
  destruct (Collection.find_one _ _); reflexivity.
Qed.

Lemma user_with_device_true dev w :
  user_with_device dev w = true <-> User.device_id w = dev.
Proof. apply String.eqb_eq. Qed.

(** After [create_or_get_user], the user the store finds for the device
    is the one that was returned: the very record when it existed, the
    record as the store keeps it when it was created. *)
Lemma create_or_get_user_is_found new_id now data d :
  exists w,
    Collection.find_one (user_with_device (UserCreate.device_id data))
      (users (snd (create_or_get_user new_id now data d))) = Some w /\
    (w = fst (create_or_get_user new_id now data d) \/
     w = User.stored (fst (create_or_get_user new_id now data d)) /\
     User.created_at (fst (create_or_get_user new_id now data d)) = now).
Proof.
  rewrite create_or_get_user_eq.
  destruct (Collection.find_one _ (users d)) as [w|] eqn:Hf; simpl.
  - exists w. auto.
  - eexists. split; [|right; split; reflexivity].
    change (?l ++ [User.stored ?s]) with (Collection.insert_one User.stored s l).
    rewrite find_one_insert_one, Hf.
    unfold user_with_device. simpl. now rewrite String.eqb_refl.
Qed.

(** X1.  [create_or_get_user] is a get-or-create.  When a user record
    with the device id is stored, it returns the first such record and
    writes nothing.  When none is stored, it returns a new unsubscribed
    user with the [uuid4] read as id and the clock read as creation
    instant, and appends that user with the creation instant at the
    millisecond precision of the store; the subscriptions are never
    touched.  In both cases a second call for the same device, whatever
    its [uuid4] and clock reads, writes nothing and returns the stored
    user: the same id, device id and flag as the first call returned. *)
Theorem create_or_get_user_idempotent (d : DB) (dev : string)
    (new_id : string) (now : datetime) (new_id' : string) (now' : datetime) :
  let first := create_or_get_user new_id now (UserCreate.mk dev) d in
  let second := create_or_get_user new_id' now' (UserCreate.mk dev) (snd first) in
  User.device_id (fst first) = dev /\
  subscriptions (snd first) = subscriptions d /\
  snd second = snd first /\
  User.id (fst second) = User.id (fst first) /\
  User.device_id (fst second) = User.device_id (fst first) /\
  User.is_subscribed (fst second) = User.is_subscribed (fst first) /\
  ((exists e, In e (users d) /\ User.device_id e = dev) ->
   In (fst first) (users d) /\ snd first = d /\ fst second = fst first) /\
  ((forall e, In e (users d) -> User.device_id e <> dev) ->
   fst first = {| User.id := new_id; User.device_id := dev;
                  User.is_subscribed := false; User.created_at := now |} /\
   users (snd first) =
     users d ++ [{| User.id := new_id; User.device_id := dev;
                    User.is_subscribed := false;
                    User.created_at := now / 1000 * 1000 |}] /\
   fst second = {| User.id := new_id; User.device_id := dev;
                   User.is_subscribed := false;
                   User.created_at := now / 1000 * 1000 |}).
Proof.
  intros first second.
  destruct (Collection.find_one (user_with_device dev) (users d)) as [e|] eqn:Hf.
  - assert (Hfirst : first = (e, d)).
    { subst first. rewrite create_or_get_user_eq. cbn [UserCreate.device_id].
      now rewrite Hf. }
    assert (Hsecond : second = (e, d)).
    { subst second. rewrite Hfirst. cbn [snd]. rewrite create_or_get_user_eq.
      cbn [UserCreate.device_id]. now rewrite Hf. }
    rewrite Hfirst, Hsecond. cbn [fst snd].
    apply find_one_Some in Hf as [Hin He]. apply user_with_device_true in He.
    do 6 (split; [auto|]). split.
    + intros _. auto.
    + intros Habs. exfalso. now apply (Habs e Hin).
  - set (w := {| User.id := new_id; User.device_id := dev;
                 User.is_subscribed := false; User.created_at := now |}).
    set (w' := {| User.id := new_id; User.device_id := dev;
                  User.is_subscribed := false;
                  User.created_at := now / 1000 * 1000 |}).
    assert (Hfirst : first = (w, {| subscriptions := subscriptions d;
                                    users := users d ++ [w'] |})).
    { subst first. rewrite create_or_get_user_eq. cbn [UserCreate.device_id].
      now rewrite Hf. }
    assert (Hsecond : second = (w', {| subscriptions := subscriptions d;
                                       users := users d ++ [w'] |})).
    { subst second. rewrite Hfirst. cbn [snd]. rewrite create_or_get_user_eq.
      cbn [UserCreate.device_id users].
      change (users d ++ [w'])
        with (Collection.insert_one (fun x : User.t => x) w' (users d)).
      rewrite find_one_insert_one, Hf.
      unfold user_with_device. cbn [User.device_id w'].
      now rewrite String.eqb_refl. }
    rewrite Hfirst, Hsecond. cbn [fst snd subscriptions users].
    do 6 (split; [reflexivity|]). split.
    + intros (e & Hin & He). exfalso.
      pose proof (proj1 (find_one_None _ _) Hf e Hin) as H.
      apply user_with_device_true in He. congruence.
    + intros _. repeat split.
Qed.

(** X2.  Reading back a registration.  After [create_or_get_user] for a
    device, [get_user] for that device succeeds without a write.  When
    a record with the device id was stored before, it returns the very
    user that [create_or_get_user] returned.  When none was stored, it
    returns the new user with the same id, device id and flag, and with
    the creation instant, which [create_or_get_user] returned as the
    clock read, at the millisecond precision of the store. *)
Theorem get_user_after_create (d : DB) (dev : string) (new_id : string)
    (now : datetime) :
  let created := create_or_get_user new_id now (UserCreate.mk dev) d in
  ((exists e, In e (users d) /\ User.device_id e = dev) ->
   get_user dev (snd created) = (Return (fst created), snd created)) /\
  ((forall e, In e (users d) -> User.device_id e <> dev) ->
   fst created = {| User.id := new_id; User.device_id := dev;
                    User.is_subscribed := false; User.created_at := now |} /\
   get_user dev (snd created) =
     (Return {| User.id := new_id; User.device_id := dev;
                User.is_subscribed := false;
                User.created_at := now / 1000 * 1000 |}, snd created)).
Proof.
  intros created.
  destruct (Collection.find_one (user_with_device dev) (users d)) as [e|] eqn:Hf.
  - assert (Hc : created = (e, d)).
    { subst created. rewrite create_or_get_user_eq. cbn [UserCreate.device_id].
      now rewrite Hf. }
    rewrite Hc. cbn [fst snd]. split.
    + intros _. now rewrite get_user_eq, Hf.
    + intros Habs. exfalso. apply find_one_Some in Hf as [Hin He].
      apply user_with_device_true in He. now apply (Habs e Hin).
  - set (w' := {| User.id := new_id; User.device_id := dev;
                  User.is_subscribed := false;
                  User.created_at := now / 1000 * 1000 |}).
    assert (Hc : created =
              ({| User.id := new_id; User.device_id := dev;
                  User.is_subscribed := false; User.created_at := now |},
               {| subscriptions := subscriptions d; users := users d ++ [w'] |})).
    { subst created. rewrite create_or_get_user_eq. cbn [UserCreate.device_id].
      now rewrite Hf. }
    rewrite Hc. cbn [fst snd]. split.
    + intros (e & Hin & He). exfalso.
      pose proof (proj1 (find_one_None _ _) Hf e Hin) as H.
      apply user_with_device_true in He. congruence.
    + intros _. split; [reflexivity|].
      rewrite get_user_eq. cbn [users].
      change (users d ++ [w'])
        with (Collection.insert_one (fun x : User.t => x) w' (users d)).
      rewrite find_one_insert_one, Hf.
      unfold user_with_device. cbn [User.device_id w'].
      now rewrite String.eqb_refl.
Qed.


(** X4.  [create_or_get_user] keeps the keys of the user collection: if
    no two records share a device id they still do not afterwards, and
    if moreover no two share an id and the [uuid4] read is not a stored
    id, ids stay unique as well.  The records stored before are kept as
    they were, in their order. *)
Theorem create_or_get_user_keeps_keys (d : DB) (dev : string)
    (new_id : string) (now : datetime) :
  List.NoDup (map User.device_id (users d)) ->
  let d' := snd (create_or_get_user new_id now (UserCreate.mk dev) d) in
  List.NoDup (map User.device_id (users d')) /\
  (List.NoDup (map User.id (users d)) ->
   ~ In new_id (map User.id (users d)) ->
   List.NoDup (map User.id (users d'))) /\
  (exists added, users d' = users d ++ added).
Proof.
  intros Hdev d'. subst d'. rewrite create_or_get_user_eq. simpl.
  destruct (Collection.find_one _ _) as [w|] eqn:Hf; simpl.
  - split; [exact Hdev|]. split; [auto|]. exists []. now rewrite app_nil_r.
  - split; [|split].
    + rewrite map_app. simpl.
      apply List.NoDup_app; [exact Hdev|repeat constructor; intros []|].
      intros a Ha [<-|[]]. apply in_map_iff in Ha as (w & Hw & Hin).
      pose proof (proj1 (find_one_None _ _) Hf w Hin) as H.
      apply user_with_device_true in Hw. congruence.
    + intros Hid Hfresh. rewrite map_app. simpl.
      apply List.NoDup_app; [exact Hid|repeat constructor; intros []|].
      intros a Ha [<-|[]]. contradiction.
    + eexists. reflexivity.
Qed.

(** ** More facts about the store operations *)

Section MoreCollectionFacts.
Context {A : Type}.
Implicit Types (flt g : A -> bool) (p : Collection.patch A) (c : list A).

Lemma in_update_one_other flt p c x :
  In x c -> flt x = false -> In x (Collection.update_one flt p c).
Proof.
  induction c as [|a c IH]; simpl; [contradiction|].
  intros [->|Hin] Hx.
  - rewrite Hx. now left.
  - destruct (flt a); right; auto.
Qed.

Lemma in_update_one_inv flt p c y :
  In y (Collection.update_one flt p c) ->
  In y c \/ exists x, In x c /\ flt x = true /\ y = Collection.apply p x.
Proof.
  induction c as [|a c IH]; simpl; [contradiction|].
  destruct (flt a) eqn:Ha; simpl.
  - intros [<-|Hin]; [right; exists a; auto|left; auto].
  - intros [<-|Hin]; [left; auto|].
    destruct (IH Hin) as [H|(x & Hx & Hf & ->)]; [left; auto|].
    right. exists x. auto.
Qed.

(** A filter that neither the patched documents nor their patched
    versions pass sees the same documents before and after. *)
Lemma filter_update_one_frame g flt p c :
  (forall x, In x c -> flt x = true ->
             g x = false /\ g (Collection.apply p x) = false) ->
  List.filter g (Collection.update_one flt p c) = List.filter g c.
Proof.
  induction c as [|a c IH]; simpl; intros H; [reflexivity|].
  destruct (flt a) eqn:Ha; simpl.
  - destruct (H a (or_introl eq_refl) Ha) as [H1 H2]. now rewrite H1, H2.
  - rewrite IH; [reflexivity|]. intros x Hx. apply H. now right.
Qed.

Lemma filter_update_many_frame g flt p c :
  (forall x, In x c -> flt x = true ->
             g x = false /\ g (Collection.apply p x) = false) ->
  List.filter g (Collection.update_many flt p c) = List.filter g c.
Proof.
  unfold Collection.update_many.
  induction c as [|a c IH]; simpl; intros H; [reflexivity|].
  rewrite IH by (intros x Hx; apply H; now right).
  destruct (flt a) eqn:Ha; [|reflexivity].
  destruct (H a (or_introl eq_refl) Ha) as [H1 H2]. now rewrite H1, H2.
Qed.

(** Patching twice with an idempotent patch that keeps the filter is
    patching once. *)
Lemma update_one_twice flt p c :
  (forall x, flt (Collection.apply p x) = flt x) ->
  (forall x, Collection.apply p (Collection.apply p x) = Collection.apply p x) ->
  Collection.update_one flt p (Collection.update_one flt p c) =
  Collection.update_one flt p c.
Proof.
  intros Hf Hp. induction c as [|a c IH]; simpl; [reflexivity|].
  destruct (flt a) eqn:Ha; simpl.
  - now rewrite Hf, Ha, Hp.
  - now rewrite Ha, IH.
Qed.

Lemma NoDup_map_eq {K} (key : A -> K) c x y :
  List.NoDup (map key c) -> In x c -> In y c -> key x = key y -> x = y.
Proof.
  induction c as [|a c IH]; simpl; [contradiction|].
  intros Hnd Hx Hy Hk. apply List.NoDup_cons_iff in Hnd as [Hni Hnd].
  destruct Hx as [->|Hx], Hy as [->|Hy]; auto.
  - exfalso. apply Hni. rewrite Hk. now apply in_map.
  - exfalso. apply Hni. rewrite <- Hk. now apply in_map.
Qed.
End MoreCollectionFacts.

(** ** The cache on the user record *)

Lemma has_active_intro d u r :
  In r (subscriptions d) -> Subscription.user_id r = u ->
  Subscription.is_active r = true -> has_active d u.
Proof. intros. exists r. auto. Qed.

Lemma serve_preserves_cache_sound d q :
  unique_ids d -> cache_sound d -> cache_sound (serve d q).
Proof.
  intros [Hsid Huid] Hc.
  destruct q as [t_exp new_id t_sub data|now u|u|u]; cbn [serve].
  - rewrite subscribe_eq.
    destruct (Collection.find_one _ _) eqn:Hf; cbn [snd]; [exact Hc|].
    intros w' Hw' Hflag. cbn [users] in Hw'.
    apply in_update_one_inv in Hw' as [Hin|(w & Hin & Hw & ->)].
    + destruct (Hc w' Hin Hflag) as (r & Hr & Hu & Ha).
      apply (has_active_intro _ _ r); auto.
      cbn [subscriptions]. apply in_or_app. now left.
    + apply user_with_id_true in Hw. simpl. rewrite Hw.
      eexists. split; [cbn [subscriptions]; apply in_or_app; right; left; reflexivity|].
      split; reflexivity.
  - rewrite get_subscription_status_eq.
    destruct (Collection.find_one _ _) as [sub|] eqn:Hf; [|exact Hc].
    destruct (expired now sub); cbn [snd]; [|exact Hc].
    apply find_active_Some in Hf as (Hsub & Hsu & _).
    intros w' Hw' Hflag. cbn [users] in Hw'.
    rewrite (update_one_unique_key User.id u) in Hw'
      by (auto; intros x; apply user_with_id_true).
    apply in_map_iff in Hw' as (w & <- & Hin).
    destruct (user_with_id u w) eqn:Hwu; [discriminate Hflag|].
    destruct (Hc w Hin Hflag) as (r & Hr & Hu & Ha).
    apply (has_active_intro _ _ r); auto. cbn [subscriptions].
    apply in_update_one_other; [exact Hr|].
    destruct (sub_with_id (Subscription.id sub) r) eqn:Hid; [|reflexivity].
    apply sub_with_id_true in Hid.
    pose proof (NoDup_map_eq Subscription.id _ r sub Hsid Hr Hsub Hid) as ->.
    unfold user_with_id in Hwu. apply String.eqb_neq in Hwu. congruence.
  - rewrite restore_purchase_eq. exact Hc.
  - rewrite cancel_subscription_eq. cbn [snd].
    intros w' Hw' Hflag. cbn [users] in Hw'.
    rewrite (update_one_unique_key User.id u) in Hw'
      by (auto; intros x; apply user_with_id_true).
    apply in_map_iff in Hw' as (w & <- & Hin).
    destruct (user_with_id u w) eqn:Hwu; [discriminate Hflag|].
    destruct (Hc w Hin Hflag) as (r & Hr & Hu & Ha).
    apply (has_active_intro _ _ r); auto. cbn [subscriptions].
    rewrite cancel_rows. apply in_map_iff. exists r. split; [|exact Hr].
    unfold user_with_id in Hwu. rewrite Hu, Hwu. reflexivity.
Qed.

(** X5.  In a sequential execution that starts from a store with unique
    ids and a sound cache and in which every [uuid4] read is fresh, the
    cache stays sound and ids stay unique: a user record never says
    [is_subscribed = true] unless a subscription row of that user is
    stored as active.  Registering a device keeps the cache sound as
    well. *)
Theorem cache_stays_sound (qs : list request) (d : DB) :
  unique_ids d -> cache_sound d -> fresh_uuids qs d ->
  cache_sound (serve_all qs d) /\ unique_ids (serve_all qs d) /\
  (forall new_id now data,
     cache_sound (snd (create_or_get_user new_id now data d))).
Proof.
  intros Hu Hc Hfresh. split; [|split].
  - revert d Hu Hc Hfresh. induction qs as [|q qs IH]; intros d Hu Hc Hf; [exact Hc|].
    destruct Hf as [Hq Hf]. simpl. apply IH; auto.
    + now apply serve_preserves_unique_ids.
    + now apply serve_preserves_cache_sound.
  - revert d Hu Hc Hfresh. induction qs as [|q qs IH]; intros d Hu Hc Hf; [exact Hu|].
    destruct Hf as [Hq Hf]. simpl. apply IH; auto.
    + now apply serve_preserves_unique_ids.
    + now apply serve_preserves_cache_sound.
  - intros new_id now data. rewrite create_or_get_user_eq.
    destruct (Collection.find_one _ _); cbn [snd]; [exact Hc|].
    intros w Hw Hflag. cbn [users] in Hw. apply in_app_or in Hw as [Hw|[<-|[]]].
    + destruct (Hc w Hw Hflag) as (r & Hr & Hur & Ha).
      now apply (has_active_intro _ _ r).
    + discriminate Hflag.
Qed.

(** ** How the entitlement operations compose *)

(** X6.  The life of a new subscription.  For a user without an active
    row, in a store with unique ids, after a [subscribe] whose [uuid4]
    read is fresh, the store holds the new row with its instants at
    millisecond precision, and the status check compares its clock read
    with the expiry instant of that stored row (30 days after the
    expiry clock read, 365 for ["yearly"], cut to the millisecond).  A
    status check whose clock read is not after that instant reports the
    stored row and writes nothing.  A status check with a later clock
    read answers [{is_subscribed: false, subscription: null}], leaves
    the rows stored before untouched, stores the new row with
    [is_active = false], and stores every user record with id [u] with
    [is_subscribed = false]. *)
Theorem subscribe_then_status (d : DB) (u plan : string) (t_exp : datetime)
    (new_id : string) (t_sub now : datetime) :
  unique_ids d -> no_active d u ->
  ~ In new_id (map Subscription.id (subscriptions d)) ->
  let d1 := snd (subscribe t_exp new_id t_sub (SubscriptionCreate.mk u plan) d) in
  let expiry :=
    (t_exp + (if String.eqb plan "yearly" then 365 else 30) * 86400000000)
    / 1000 * 1000 in
  let row (active : bool) :=
    {| Subscription.id := new_id;
       Subscription.user_id := u;
       Subscription.is_active := active;
       Subscription.plan := plan;
       Subscription.price :=
         if String.eqb plan "yearly" then 499%float else 53%float;
       Subscription.subscribed_at := t_sub / 1000 * 1000;
       Subscription.expires_at := Some expiry |} in
  subscriptions d1 = subscriptions d ++ [row true] /\
  (now <= expiry ->
   get_subscription_status now u d1 =
   ({[ "is_subscribed" := VBool true; "subscription" := VSubscription (row true) ]},
    d1)) /\
  (expiry < now ->
   get_subscription_status now u d1 =
   ({[ "is_subscribed" := VBool false; "subscription" := VNone ]},
    {| subscriptions := subscriptions d ++ [row false];
       users := map (fun w => if String.eqb (User.id w) u
                              then {| User.id := User.id w;
                                      User.device_id := User.device_id w;
                                      User.is_subscribed := false;
                                      User.created_at := User.created_at w |}
                              else w)
                    (users d) |})).
Proof.
  intros [Hsid Huid] Hno Hfresh d1 expiry row.
  apply find_active_None in Hno.
  assert (Hd1 : d1 =
    {| subscriptions := subscriptions d ++ [row true];
       users := Collection.update_one (user_with_id u)
                  (set_subscribed true) (users d) |}).
  { subst d1 row expiry. rewrite subscribe_eq. cbn [SubscriptionCreate.user_id].
    rewrite Hno. cbn [snd SubscriptionCreate.plan].
    unfold Subscription.stored, bson_datetime, timedelta_days.
    cbn [Subscription.id Subscription.user_id Subscription.is_active
         Subscription.plan Subscription.price Subscription.subscribed_at
         Subscription.expires_at option_map].
    now destruct (String.eqb plan "yearly"). }
  clearbody d1. subst d1. cbn [subscriptions].
  split; [reflexivity|].
  assert (Hfound : Collection.find_one (active_of u)
                     (subscriptions d ++ [row true]) = Some (row true)).
  { change (subscriptions d ++ [row true])
      with (Collection.insert_one (fun x : Subscription.t => x) (row true)
              (subscriptions d)).
    rewrite find_one_insert_one, Hno.
    unfold active_of. cbn. now rewrite String.eqb_refl. }
  rewrite get_subscription_status_eq. cbn [subscriptions users]. rewrite Hfound.
  split; intros Hcmp.
  - assert (He : expired now (row true) = false).
    { apply expired_false. right. exists expiry. now split. }
    now rewrite He.
  - assert (He : expired now (row true) = true).
    { apply expired_true. exists expiry. now split. }
    rewrite He. f_equal. f_equal.
    + etransitivity;
        [apply (update_one_at Subscription.id _ _ (subscriptions d) (row true) [])
        |reflexivity].
      * rewrite map_app. apply List.NoDup_app; [exact Hsid|repeat constructor; intros []|].
        intros a Ha [<-|[]]. contradiction.
      * intros x. apply sub_with_id_true.
    + rewrite (update_one_unique_key User.id u (user_with_id u)
                 (set_subscribed true) (users d) Huid
                 (fun x => user_with_id_true u x)).
      rewrite (update_one_unique_key User.id u).
      2:{ rewrite map_map.
          rewrite (map_ext _ User.id); [exact Huid|].
          intros w. now destruct (user_with_id u w). }
      2:{ intros x. apply user_with_id_true. }
      rewrite map_map. apply map_ext. intros w.
      unfold user_with_id. cbn [Collection.apply set_subscribed].
      destruct (String.eqb (User.id w) u) eqn:Hw.
      * cbn. now rewrite Hw.
      * now rewrite Hw.
Qed.

Lemma cancel_leaves_no_active d u : no_active (snd (cancel_subscription u d)) u.
Proof.
  rewrite cancel_subscription_eq. cbn [snd]. intros r Hr Hu.
  cbn [subscriptions] in Hr. rewrite cancel_rows in Hr.
  apply in_map_iff in Hr as (s & <- & Hs).
  destruct (String.eqb (Subscription.user_id s) u) eqn:He; [reflexivity|].
  apply String.eqb_neq in He. contradiction.
Qed.

(** X7.  A cancellation settles the user, in every store: after
    [cancel_subscription], a second cancellation answers
    [cancelled: false], a status check at any instant answers
    [{is_subscribed: false, subscription: null}] and [restore_purchase]
    answers [restored: false], and none of the three writes anything. *)
Theorem cancel_settles (d : DB) (u : string) (now : datetime) :
  let d' := snd (cancel_subscription u d) in
  cancel_subscription u d' =
    ({[ "message" := VStr "Subscription cancelled"; "cancelled" := VBool false ]},
     d') /\
  get_subscription_status now u d' =
    ({[ "is_subscribed" := VBool false; "subscription" := VNone ]}, d') /\
  restore_purchase u d' =
    ({[ "restored" := VBool false;
        "message" := VStr "No active subscription found to restore" ]}, d').
Proof.
  intros d'. pose proof (cancel_leaves_no_active d u) as Hno. fold d' in Hno.
  pose proof (proj2 (find_active_None d' u) Hno) as Hf.
  split; [|split].
  - rewrite (cancel_subscription_eq u d'), cancel_modified_count.
    apply no_active_filter in Hno. unfold active_rows in Hno. rewrite Hno.
    f_equal. subst d'. rewrite cancel_subscription_eq. cbn [snd subscriptions users].
    f_equal.
    + rewrite !cancel_rows, map_map. apply map_ext. intros s.
      destruct (String.eqb (Subscription.user_id s) u) eqn:He; simpl; now rewrite He.
    + apply update_one_twice; intros x; reflexivity.
  - now rewrite get_subscription_status_eq, Hf.
  - now rewrite restore_purchase_eq, Hf.
Qed.

(** X8.  A status check is stable.  In a store with unique ids in which
    [u] has at most one active row, repeating the check with the same
    clock read gives the same answer and writes nothing; and once the
    answer was not-subscribed, [u] has no active row, so every later
    status check answers not-subscribed as well, without a write. *)
Theorem status_check_is_stable (d : DB) (u : string) (now : datetime) :
  unique_ids d -> at_most_one_active d u ->
  let answer := fst (get_subscription_status now u d) in
  let d' := snd (get_subscription_status now u d) in
  get_subscription_status now u d' = (answer, d') /\
  (answer !! "is_subscribed" = Some (VBool false) ->
   no_active d' u /\
   forall now',
     get_subscription_status now' u d' =
     ({[ "is_subscribed" := VBool false; "subscription" := VNone ]}, d')).
Proof.
  intros Hu Hone answer d'. subst answer d'.
  destruct (Collection.find_one (active_of u) (subscriptions d)) as [r|] eqn:Hf.
  - rewrite (get_status_on_found_row d u now r Hu Hf).
    destruct (expired now r) eqn:He; cbn [fst snd].
    + match goal with |- context [get_subscription_status now u ?x] => set (d' := x) end.
      assert (Hno : no_active d' u).
      { intros x' Hx' Hux. subst d'. cbn [subscriptions] in Hx'.
        apply in_map_iff in Hx' as (x & <- & Hx).
        destruct (String.eqb (Subscription.id x) (Subscription.id r)) eqn:Hid;
          [reflexivity|].
        destruct (Subscription.is_active x) eqn:Ha; [|reflexivity].
        pose proof (find_the_active d u x Hone Hx Hux Ha) as Hfx.
        rewrite Hf in Hfx. injection Hfx as ->.
        now rewrite String.eqb_refl in Hid. }
      pose proof (proj2 (find_active_None d' u) Hno) as Hf'.
      split; [now rewrite get_subscription_status_eq, Hf'|].
      intros _. split; [exact Hno|].
      intros now'. now rewrite get_subscription_status_eq, Hf'.
    + split; [now rewrite (get_status_on_found_row d u now r Hu Hf), He|].
      intros H. vm_compute in H. discriminate H.
  - assert (Hg : forall t, get_subscription_status t u d =
              ({[ "is_subscribed" := VBool false; "subscription" := VNone ]}, d)).
    { intros t. now rewrite get_subscription_status_eq, Hf. }
    rewrite (Hg now). cbn [fst snd].
    split; [apply Hg|].
    intros _. split; [now apply find_active_None|exact Hg].
Qed.

(** X9.  Users are isolated from each other.  In a store with unique
    ids, a request about one user leaves the subscription rows of every
    other user and the records of every other user exactly as they
    were. *)
Theorem other_users_are_untouched (d : DB) (q : request) (v : string) :
  unique_ids d -> target q <> v ->
  List.filter (fun s => String.eqb (Subscription.user_id s) v)
    (subscriptions (serve d q)) =
  List.filter (fun s => String.eqb (Subscription.user_id s) v) (subscriptions d) /\
  List.filter (fun w => String.eqb (User.id w) v) (users (serve d q)) =
  List.filter (fun w => String.eqb (User.id w) v) (users d).
Proof.
  intros [Hsid Huid] Hne.
  assert (Husers : forall b,
    List.filter (fun w => String.eqb (User.id w) v)
      (Collection.update_one (user_with_id (target q)) (set_subscribed b) (users d)) =
    List.filter (fun w => String.eqb (User.id w) v) (users d)).
  { intros b. apply filter_update_one_frame. intros x _ Hx.
    apply user_with_id_true in Hx. simpl. rewrite Hx.
    apply String.eqb_neq in Hne. now rewrite Hne. }
  destruct q as [t_exp new_id t_sub data|now u|u|u]; cbn [serve target] in *.
  - rewrite subscribe_eq.
    destruct (Collection.find_one _ _); cbn [snd subscriptions users]; [now split|].
    split; [|apply Husers].
    rewrite List.filter_app.
    cbn [List.filter Subscription.user_id Subscription.stored].
    apply String.eqb_neq in Hne. rewrite Hne. apply app_nil_r.
  - rewrite get_subscription_status_eq.
    destruct (Collection.find_one _ _) as [sub|] eqn:Hf; [|now split].
    destruct (expired now sub); cbn [snd subscriptions users]; [|now split].
    split; [|apply Husers].
    apply find_active_Some in Hf as (Hsub & Hsu & _).
    apply filter_update_one_frame. intros x Hx Hid.
    apply sub_with_id_true in Hid.
    pose proof (NoDup_map_eq Subscription.id _ x sub Hsid Hx Hsub Hid) as ->.
    simpl. rewrite Hsu. apply String.eqb_neq in Hne. now rewrite Hne.
  - rewrite restore_purchase_eq. now split.
  - rewrite cancel_subscription_eq. cbn [snd subscriptions users].
    split; [|apply Husers].
    apply filter_update_many_frame. intros x _ Hx.
    apply active_of_true in Hx as [Hx _]. simpl. rewrite Hx.
    apply String.eqb_neq in Hne. now rewrite Hne.
Qed.

(** X10.  The entitlement requests write two flags and nothing else:
    whatever the store, serving a request keeps the user collection as
    it is up to [is_subscribed] (no record added, removed or moved, no
    id, device id or creation instant changed), keeps every stored
    subscription row in its place up to [is_active], and never removes
    a row. *)
Theorem entitlement_writes_only_flags (d : DB) (q : request) :
  map (fun w => (User.id w, User.device_id w, User.created_at w))
      (users (serve d q)) =
  map (fun w => (User.id w, User.device_id w, User.created_at w)) (users d) /\
  (exists added,
     map (Subscription.set_is_active false) (subscriptions (serve d q)) =
     map (Subscription.set_is_active false) (subscriptions d) ++ added) /\
  (length (subscriptions d) <= length (subscriptions (serve d q)))%nat.
Proof.
  assert (Husers : forall u b,
    map (fun w => (User.id w, User.device_id w, User.created_at w))
      (Collection.update_one (user_with_id u) (set_subscribed b) (users d)) =
    map (fun w => (User.id w, User.device_id w, User.created_at w)) (users d)).
  { intros u b. now apply map_key_update_one. }
  destruct q as [t_exp new_id t_sub data|now u|u|u]; cbn [serve].
  - rewrite subscribe_eq.
    destruct (Collection.find_one _ _); cbn [snd subscriptions users].
    + split; [reflexivity|]. split; [exists []; now rewrite app_nil_r|lia].
    + split; [apply Husers|]. split.
      * rewrite map_app. eexists. reflexivity.
      * rewrite List.length_app. lia.
  - rewrite get_subscription_status_eq.
    destruct (Collection.find_one _ _) as [sub|]; cbn [snd].
    + destruct (expired now sub); cbn [snd subscriptions users].
      * split; [apply Husers|]. split.
        -- exists []. rewrite app_nil_r. now apply map_key_update_one.
        -- rewrite length_update_one. lia.
      * split; [reflexivity|]. split; [exists []; now rewrite app_nil_r|lia].
    + split; [reflexivity|]. split; [exists []; now rewrite app_nil_r|lia].
  - rewrite restore_purchase_eq. cbn [snd].
    split; [reflexivity|]. split; [exists []; now rewrite app_nil_r|lia].
  - rewrite cancel_subscription_eq. cbn [snd subscriptions users].
    split; [apply Husers|]. split.
    + exists []. rewrite app_nil_r. now apply map_key_update_many.
    + unfold Collection.update_many. rewrite List.length_map. lia.
Qed.

(** ** The catalog *)

Lemma get_instrumental_eq i c :
  get_instrumental i c =
  (match Collection.find_one (instrumental_with_id i) c with
   | None => HTTPException 404 "Instrumental not found"
   | Some x => Return x
   end, c).
Proof.
  unfold get_instrumental, mbind, C_bind, db_instrumentals.find_one.
  destruct (Collection.find_one _ _); reflexivity.
Qed.

Lemma update_instrumental_eq i data c :
  update_instrumental i data c =
  match update_data data with
  | [] => (HTTPException 400 "No update data provided", c)
  | _ :: _ =>
      match Collection.find_one (instrumental_with_id i) c with
      | None => (HTTPException 404 "Instrumental not found",
                 Collection.update_one (instrumental_with_id i)
                   (set_patch (update_data data)) c)
      | Some _ =>
          (match Collection.find_one (instrumental_with_id i)
                   (Collection.update_one (instrumental_with_id i)
                      (set_patch (update_data data)) c) with
           | Some x => Return x
           | None => TypeError
           end,
           Collection.update_one (instrumental_with_id i)
             (set_patch (update_data data)) c)
      end
  end.
Proof.
  unfold update_instrumental, mbind, C_bind, db_instrumentals.update_one,
    db_instrumentals.find_one.
  destruct (update_data data); [reflexivity|].
  destruct (Collection.find_one (instrumental_with_id i) c); simpl; [|reflexivity].
  destruct (Collection.find_one _ _); reflexivity.
Qed.

Lemma update_audio_url_eq i url size c :
  update_audio_url i url size c =
  (match Collection.find_one (instrumental_with_id i) c with
   | None => HTTPException 404 "Instrumental not found"
   | Some _ => Return {[ "message" := "Audio URL updated successfully" ]}
   end,
   Collection.update_one (instrumental_with_id i)
     (set_patch [("audio_url", FStr url); ("file_size", FInt size)]) c).
Proof.
  unfold update_audio_url, mbind, C_bind, db_instrumentals.update_one.
  destruct (Collection.find_one _ _); reflexivity.
Qed.

Lemma delete_instrumental_eq i c :
  delete_instrumental i c =
  (match Collection.find_one (instrumental_with_id i) c with
   | None => HTTPException 404 "Instrumental not found"
   | Some _ => Return {[ "message" := "Instrumental deleted successfully" ]}
   end,
   db_instrumentals.remove_first (instrumental_with_id i) c).
Proof.
  unfold delete_instrumental, mbind, C_bind, db_instrumentals.delete_one.
  destruct (Collection.find_one _ _); reflexivity.
Qed.

Lemma instrumental_with_id_true i x :
  instrumental_with_id i x = true <-> Instrumental.id x = i.
Proof. apply String.eqb_eq. Qed.

Lemma find_instrumental_absent i c :
  (forall x, In x c -> Instrumental.id x <> i) ->
  Collection.find_one (instrumental_with_id i) c = None.
Proof.
  intros H. apply find_one_None. intros x Hx.
  destruct (instrumental_with_id i x) eqn:He; [|reflexivity].
  apply instrumental_with_id_true in He. now apply H in Hx.
Qed.

(** With unique ids the store finds an instrumental by its id wherever
    it is stored. *)
Lemma find_instrumental_at l1 x l2 :
  List.NoDup (map Instrumental.id (l1 ++ x :: l2)) ->
  Collection.find_one (instrumental_with_id (Instrumental.id x)) (l1 ++ x :: l2) =
  Some x.
Proof.
  intros Hnd. unfold Collection.find_one.
  induction l1 as [|a l1 IH]; simpl.
  - unfold instrumental_with_id. now rewrite String.eqb_refl.
  - simpl in Hnd. apply List.NoDup_cons_iff in Hnd as [Hni Hnd].
    destruct (instrumental_with_id (Instrumental.id x) a) eqn:Ha; [|now apply IH].
    exfalso. apply Hni. apply instrumental_with_id_true in Ha. rewrite Ha.
    apply in_map, in_elt.
Qed.

(** A [$set] changes neither the id nor the creation instant, and it
    cannot remove an audio url. *)
Lemma set_field_keeps x kv :
  Instrumental.id (set_field x kv) = Instrumental.id x /\
  Instrumental.created_at (set_field x kv) = Instrumental.created_at x /\
  (is_Some (Instrumental.audio_url x) ->
   is_Some (Instrumental.audio_url (set_field x kv))).
Proof.
  destruct x, kv as [k v]. unfold set_field.
  repeat match goal with
         | |- context [String.eqb k ?s] => destruct (String.eqb k s)
         end;
    destruct v; simpl; auto.
Qed.

Lemma set_fields_keeps fields x :
  Instrumental.id (set_fields fields x) = Instrumental.id x /\
  Instrumental.created_at (set_fields fields x) = Instrumental.created_at x /\
  (is_Some (Instrumental.audio_url x) ->
   is_Some (Instrumental.audio_url (set_fields fields x))).
Proof.
  unfold set_fields. revert x.
  induction fields as [|kv fields IH]; intros x; simpl; [auto|].
  destruct (IH (set_field x kv)) as (H1 & H2 & H3).
  destruct (set_field_keeps x kv) as (K1 & K2 & K3).
  rewrite H1, H2, K1, K2. auto.
Qed.

Lemma update_data_empty data : update_data data = [] <-> data = empty_update.
Proof.
  destruct data as [[?|] [?|] [?|] [?|] [?|] [?|] [?|] [?|] [?|]];
    split; intros H; try reflexivity; discriminate H.
Qed.

(** What the [$set] of an update does, field by field. *)
Lemma set_update_data data x :
  set_fields (update_data data) x =
  {| Instrumental.id := Instrumental.id x;
     Instrumental.title :=
       default (Instrumental.title x) (InstrumentalUpdate.title data);
     Instrumental.mood :=
       default (Instrumental.mood x) (InstrumentalUpdate.mood data);
     Instrumental.duration :=
       default (Instrumental.duration x) (InstrumentalUpdate.duration data);
     Instrumental.duration_formatted :=
       default (Instrumental.duration_formatted x)
         (InstrumentalUpdate.duration_formatted data);
     Instrumental.is_premium :=
       default (Instrumental.is_premium x) (InstrumentalUpdate.is_premium data);
     Instrumental.is_featured :=
       default (Instrumental.is_featured x) (InstrumentalUpdate.is_featured data);
     Instrumental.audio_url :=
       match InstrumentalUpdate.audio_url data with
       | Some s => Some s
       | None => Instrumental.audio_url x
       end;
     Instrumental.thumbnail_color :=
       default (Instrumental.thumbnail_color x)
         (InstrumentalUpdate.thumbnail_color data);
     Instrumental.file_size :=
       default (Instrumental.file_size x) (InstrumentalUpdate.file_size data);
     Instrumental.created_at := Instrumental.created_at x |}.
Proof.
  destruct x.
  destruct data as [[?|] [?|] [?|] [?|] [?|] [?|] [?|] [?|] [?|]]; reflexivity.
Qed.

(** X11.  The errors of [update_instrumental].  An update that carries
    no field is refused with 400 "No update data provided" before the
    store is consulted, so also for an id that is not stored; an update
    that carries a field (an empty string, a zero or a false count as
    one) for an id that is not stored is refused with 404.  Neither
    writes anything. *)
Theorem update_instrumental_errors (i : string) (data : InstrumentalUpdate.t)
    (c : list Instrumental.t) :
  (data = empty_update ->
   update_instrumental i data c =
   (HTTPException 400 "No update data provided", c)) /\
  (data <> empty_update ->
   (forall x, In x c -> Instrumental.id x <> i) ->
   update_instrumental i data c =
   (HTTPException 404 "Instrumental not found", c)).
Proof.
  rewrite update_instrumental_eq. split.
  - intros H. apply update_data_empty in H. now rewrite H.
  - intros H Habs.
    destruct (update_data data) eqn:Hd; [now apply update_data_empty in Hd|].
    rewrite (find_instrumental_absent i c Habs). f_equal.
    apply update_one_no_match. now apply find_one_None, find_instrumental_absent.
Qed.

(** X12.  Round trip of [update_instrumental].  In a catalog with unique
    ids, an update that carries a field, for the id of a stored
    instrumental, succeeds: the instrumental it returns has each field
    that was sent replaced and every other field, the id and the
    creation instant as before; it is stored in the place of the old
    one, nothing else changes, and reading it back with
    [get_instrumental] returns it. *)
Theorem update_instrumental_round_trip (data : InstrumentalUpdate.t)
    (l1 : list Instrumental.t) (x : Instrumental.t) (l2 : list Instrumental.t) :
  List.NoDup (map Instrumental.id (l1 ++ x :: l2)) ->
  data <> empty_update ->
  let x' :=
    {| Instrumental.id := Instrumental.id x;
       Instrumental.title :=
         default (Instrumental.title x) (InstrumentalUpdate.title data);
       Instrumental.mood :=
         default (Instrumental.mood x) (InstrumentalUpdate.mood data);
       Instrumental.duration :=
         default (Instrumental.duration x) (InstrumentalUpdate.duration data);
       Instrumental.duration_formatted :=
         default (Instrumental.duration_formatted x)
           (InstrumentalUpdate.duration_formatted data);
       Instrumental.is_premium :=
         default (Instrumental.is_premium x) (InstrumentalUpdate.is_premium data);
       Instrumental.is_featured :=
         default (Instrumental.is_featured x) (InstrumentalUpdate.is_featured data);
       Instrumental.audio_url :=
         match InstrumentalUpdate.audio_url data with
         | Some s => Some s
         | None => Instrumental.audio_url x
         end;
       Instrumental.thumbnail_color :=
         default (Instrumental.thumbnail_color x)
           (InstrumentalUpdate.thumbnail_color data);
       Instrumental.file_size :=
         default (Instrumental.file_size x) (InstrumentalUpdate.file_size data);
       Instrumental.created_at := Instrumental.created_at x |} in
  update_instrumental (Instrumental.id x) data (l1 ++ x :: l2) =
    (Return x', l1 ++ x' :: l2) /\
  get_instrumental (Instrumental.id x) (l1 ++ x' :: l2) =
    (Return x', l1 ++ x' :: l2).
Proof.
  intros Hnd Hdata x'.
  assert (Hnd' : List.NoDup (map Instrumental.id (l1 ++ x' :: l2))).
  { rewrite map_app in *. exact Hnd. }
  pose proof (find_instrumental_at l1 x' l2 Hnd') as Hfind'.
  change (Instrumental.id x') with (Instrumental.id x) in Hfind'.
  assert (Hupd : Collection.update_one (instrumental_with_id (Instrumental.id x))
                   (set_patch (update_data data)) (l1 ++ x :: l2) = l1 ++ x' :: l2).
  { rewrite (update_one_at Instrumental.id _ _ l1 x l2 Hnd
               (fun y => instrumental_with_id_true (Instrumental.id x) y)).
    cbn [Collection.apply set_patch]. now rewrite set_update_data. }
  split.
  - rewrite update_instrumental_eq.
    destruct (update_data data) eqn:Hd; [now apply update_data_empty in Hd|].
    rewrite (find_instrumental_at l1 x l2 Hnd), Hupd.
    now rewrite Hfind'.
  - rewrite get_instrumental_eq. now rewrite Hfind'.
Qed.

(** X13.  What the two update handlers never do.  Whatever they are
    sent, and whether they succeed or raise, every stored instrumental
    stays in its place with its id and its creation instant, and an
    instrumental that had an audio url still has one: an update cannot
    unset it. *)
Theorem updates_keep_identity_and_audio (c : list Instrumental.t) (k : nat)
    (x : Instrumental.t) (i : string) (data : InstrumentalUpdate.t)
    (url : string) (size : Z) :
  c !! k = Some x ->
  (exists x', snd (update_instrumental i data c) !! k = Some x' /\
              Instrumental.id x' = Instrumental.id x /\
              Instrumental.created_at x' = Instrumental.created_at x /\
              (is_Some (Instrumental.audio_url x) ->
               is_Some (Instrumental.audio_url x'))) /\
  (exists x', snd (update_audio_url i url size c) !! k = Some x' /\
              Instrumental.id x' = Instrumental.id x /\
              Instrumental.created_at x' = Instrumental.created_at x /\
              (is_Some (Instrumental.audio_url x) ->
               is_Some (Instrumental.audio_url x'))).
Proof.
  intros Hk.
  assert (Hgen : forall fields,
    exists x', Collection.update_one (instrumental_with_id i) (set_patch fields) c !! k
               = Some x' /\
               Instrumental.id x' = Instrumental.id x /\
               Instrumental.created_at x' = Instrumental.created_at x /\
               (is_Some (Instrumental.audio_url x) ->
                is_Some (Instrumental.audio_url x'))).
  { intros fields.
    destruct (update_one_lookup (instrumental_with_id i) (set_patch fields) c k x Hk)
      as [H|[H _]].
    - exists x. auto.
    - eexists. split; [exact H|]. apply set_fields_keeps. }
  split.
  - rewrite update_instrumental_eq.
    destruct (update_data data) eqn:Hd; cbn [snd]; [exists x; auto|].
    destruct (Collection.find_one _ c); cbn [snd]; apply Hgen.
  - rewrite update_audio_url_eq. cbn [snd]. apply Hgen.
Qed.

Lemma remove_first_no_match flt c :
  (forall x, In x c -> flt x = false) -> db_instrumentals.remove_first flt c = c.
Proof.
  induction c as [|a c IH]; simpl; intros H; [reflexivity|].
  rewrite (H a (or_introl eq_refl)). f_equal. apply IH.
  intros x Hx. apply H. now right.
Qed.

Lemma remove_first_at l1 x l2 :
  List.NoDup (map Instrumental.id (l1 ++ x :: l2)) ->
  db_instrumentals.remove_first (instrumental_with_id (Instrumental.id x))
    (l1 ++ x :: l2) = l1 ++ l2.
Proof.
  intros Hnd. induction l1 as [|a l1 IH]; simpl.
  - unfold instrumental_with_id. now rewrite String.eqb_refl.
  - simpl in Hnd. apply List.NoDup_cons_iff in Hnd as [Hni Hnd].
    destruct (instrumental_with_id (Instrumental.id x) a) eqn:Ha.
    + exfalso. apply Hni. apply instrumental_with_id_true in Ha. rewrite Ha.
      apply in_map, in_elt.
    + f_equal. now apply IH.
Qed.

(** X14.  [delete_instrumental] raises 404 and writes nothing when no
    stored instrumental has the id.  In a catalog with unique ids,
    deleting the id of a stored instrumental removes that instrumental
    and no other, keeps the order of the rest, answers with the success
    message, and a later [get_instrumental] or second deletion of the
    id raises 404. *)
Theorem delete_instrumental_removes_one (i : string) (c : list Instrumental.t) :
  ((forall x, In x c -> Instrumental.id x <> i) ->
   delete_instrumental i c = (HTTPException 404 "Instrumental not found", c)) /\
  (forall l1 x l2,
     c = l1 ++ x :: l2 -> Instrumental.id x = i ->
     List.NoDup (map Instrumental.id c) ->
     delete_instrumental i c =
       (Return {[ "message" := "Instrumental deleted successfully" ]}, l1 ++ l2) /\
     get_instrumental i (l1 ++ l2) =
       (HTTPException 404 "Instrumental not found", l1 ++ l2) /\
     delete_instrumental i (l1 ++ l2) =
       (HTTPException 404 "Instrumental not found", l1 ++ l2)).
Proof.
  assert (Habsent : forall c',
    (forall x, In x c' -> Instrumental.id x <> i) ->
    delete_instrumental i c' = (HTTPException 404 "Instrumental not found", c')).
  { intros c' Habs. rewrite delete_instrumental_eq.
    rewrite (find_instrumental_absent i c' Habs). f_equal.
    apply remove_first_no_match. now apply find_one_None, find_instrumental_absent. }
  split; [apply Habsent|].
  intros l1 x l2 -> <- Hnd.
  assert (Hgone : forall y, In y (l1 ++ l2) -> Instrumental.id y <> Instrumental.id x).
  { intros y Hy Heq. rewrite map_app in Hnd. simpl in Hnd.
    apply List.NoDup_remove_2 in Hnd. apply Hnd. rewrite <- map_app, <- Heq.
    now apply in_map. }
  split; [|split].
  - rewrite delete_instrumental_eq, (find_instrumental_at l1 x l2 Hnd).
    now rewrite (remove_first_at l1 x l2 Hnd).
  - rewrite get_instrumental_eq. now rewrite (find_instrumental_absent _ _ Hgone).
  - now apply Habsent.
Qed.

(** X15.  [update_audio_url] raises 404 and writes nothing when no
    stored instrumental has the id.  In a catalog with unique ids, for
    the id of a stored instrumental it answers with the success message
    and replaces both the audio url and the file size of that
    instrumental by the values it was sent, leaving its other fields
    and every other instrumental as they were. *)
Theorem update_audio_url_sets_both (i url : string) (size : Z)
    (c : list Instrumental.t) :
  ((forall x, In x c -> Instrumental.id x <> i) ->
   update_audio_url i url size c =
   (HTTPException 404 "Instrumental not found", c)) /\
  (forall l1 x l2,
     c = l1 ++ x :: l2 -> Instrumental.id x = i ->
     List.NoDup (map Instrumental.id c) ->
     update_audio_url i url size c =
     (Return {[ "message" := "Audio URL updated successfully" ]},
      l1 ++ {| Instrumental.id := Instrumental.id x;
               Instrumental.title := Instrumental.title x;
               Instrumental.mood := Instrumental.mood x;
               Instrumental.duration := Instrumental.duration x;
               Instrumental.duration_formatted := Instrumental.duration_formatted x;
               Instrumental.is_premium := Instrumental.is_premium x;
               Instrumental.is_featured := Instrumental.is_featured x;
               Instrumental.audio_url := Some url;
               Instrumental.thumbnail_color := Instrumental.thumbnail_color x;
               Instrumental.file_size := size;
               Instrumental.created_at := Instrumental.created_at x |} :: l2)).
Proof.
  rewrite update_audio_url_eq. split.
  - intros Habs. rewrite (find_instrumental_absent i c Habs). f_equal.
    apply update_one_no_match. now apply find_one_None, find_instrumental_absent.
  - intros l1 x l2 -> <- Hnd.
    rewrite (find_instrumental_at l1 x l2 Hnd). f_equal.
    rewrite (update_one_at Instrumental.id _ _ l1 x l2 Hnd
               (fun y => instrumental_with_id_true (Instrumental.id x) y)).
    now destruct x.
Qed.

Lemma create_instrumental_eq new_id now data c :
  create_instrumental new_id now data c =
  (new_instrumental new_id now data,
   Collection.insert_one Instrumental.stored (new_instrumental new_id now data) c).
Proof. reflexivity. Qed.

(** X16.  Round trip of [create_instrumental].  The instrumental it
    returns carries the fields that were sent, the [uuid4] read as its
    id and the clock read as its creation instant; what it appends to
    the catalog is that instrumental with the creation instant at the
    millisecond precision of the store.  When the id is not yet stored,
    [get_instrumental] returns the stored instrumental for it, and what
    it answers for every other id is what it answered before. *)
Theorem create_instrumental_round_trip (new_id : string) (now : datetime)
    (data : InstrumentalCreate.t) (c : list Instrumental.t) :
  ~ In new_id (map Instrumental.id c) ->
  let created := fst (create_instrumental new_id now data c) in
  let c' := snd (create_instrumental new_id now data c) in
  let built (t : datetime) :=
    {| Instrumental.id := new_id;
       Instrumental.title := InstrumentalCreate.title data;
       Instrumental.mood := InstrumentalCreate.mood data;
       Instrumental.duration := InstrumentalCreate.duration data;
       Instrumental.duration_formatted := InstrumentalCreate.duration_formatted data;
       Instrumental.is_premium := InstrumentalCreate.is_premium data;
       Instrumental.is_featured := InstrumentalCreate.is_featured data;
       Instrumental.audio_url := InstrumentalCreate.audio_url data;
       Instrumental.thumbnail_color := InstrumentalCreate.thumbnail_color data;
       Instrumental.file_size := InstrumentalCreate.file_size data;
       Instrumental.created_at := t |} in
  created = built now /\
  c' = c ++ [built (now / 1000 * 1000)] /\
  get_instrumental new_id c' = (Return (built (now / 1000 * 1000)), c') /\
  (forall j, j <> new_id ->
             fst (get_instrumental j c') = fst (get_instrumental j c)).
Proof.
  intros Hfresh created c' built. subst created c'.
  rewrite create_instrumental_eq.
  cbn [fst snd]. split; [reflexivity|]. split; [reflexivity|].
  rewrite !get_instrumental_eq.
  assert (Hnone : Collection.find_one (instrumental_with_id new_id) c = None).
  { apply find_instrumental_absent. intros x Hx Hid. apply Hfresh.
    rewrite <- Hid. now apply in_map. }
  split.
  - rewrite find_one_insert_one, Hnone.
    unfold instrumental_with_id.
    cbn [Instrumental.id Instrumental.stored new_instrumental].
    now rewrite String.eqb_refl.
  - intros j Hj. rewrite !get_instrumental_eq. cbn [fst].
    rewrite find_one_insert_one.
    destruct (Collection.find_one (instrumental_with_id j) c); [reflexivity|].
    unfold instrumental_with_id.
    cbn [Instrumental.id Instrumental.stored new_instrumental].
    assert (Hne : new_id <> j) by congruence.
    apply String.eqb_neq in Hne. now rewrite Hne.
Qed.

(** ** Listings, statistics and seeding *)

Lemma in_firstn {A} (n : nat) (l : list A) x : In x (List.firstn n l) -> In x l.
Proof.
  intros H. rewrite <- (List.firstn_skipn n l). apply in_or_app. now left.
Qed.

Section ListingFacts.
Variable regex_search_i : string -> string -> bool.

Lemma listing_query_true mood is_premium search x :
  listing_query regex_search_i mood is_premium search x = true <->
  (forall m, mood = Some m -> m <> "" -> m <> "All" -> Instrumental.mood x = m) /\
  (forall p, is_premium = Some p -> Instrumental.is_premium x = p) /\
  (forall s, search = Some s -> s <> "" ->
             regex_search_i s (Instrumental.title x) = true).
Proof.
  unfold listing_query. rewrite !andb_true_iff.
  assert (Hm :
    match mood with
    | Some m => if negb (String.eqb m "") && negb (String.eqb m "All")
                then String.eqb (Instrumental.mood x) m else true
    | None => true
    end = true <->
    (forall m, mood = Some m -> m <> "" -> m <> "All" -> Instrumental.mood x = m)).
  { destruct mood as [m|]; [|split; [discriminate|reflexivity]].
    destruct (String.eqb_spec m ""), (String.eqb_spec m "All"); simpl.
    - split; [intros _ ? [= <-] ?; contradiction|reflexivity].
    - split; [intros _ ? [= <-] ?; contradiction|reflexivity].
    - split; [intros _ ? [= <-] ? ?; contradiction|reflexivity].
    - rewrite String.eqb_eq. split; [now intros H ? [= <-] _ _|auto]. }
  assert (Hp :
    match is_premium with
    | Some p => Bool.eqb (Instrumental.is_premium x) p
    | None => true
    end = true <->
    (forall p, is_premium = Some p -> Instrumental.is_premium x = p)).
  { destruct is_premium as [p|]; [|split; [discriminate|reflexivity]].
    rewrite Bool.eqb_true_iff. split; [now intros H ? [= <-]|auto]. }
  assert (Hs :
    match search with
    | Some s => if negb (String.eqb s "")
                then regex_search_i s (Instrumental.title x) else true
    | None => true
    end = true <->
    (forall s, search = Some s -> s <> "" ->
               regex_search_i s (Instrumental.title x) = true)).
  { destruct search as [s|]; [|split; [discriminate|reflexivity]].
    destruct (String.eqb_spec s ""); simpl.
    - split; [intros _ ? [= <-] ?; contradiction|reflexivity].
    - split; [now intros H ? [= <-] _|auto]. }
  rewrite Hm, Hp, Hs. tauto.
Qed.

(** X17.  [get_instrumentals] writes nothing and never lists more than
    100 instrumentals.  Each one it lists is stored and meets every
    filter that was sent: its mood is the one asked for (a missing or
    empty mood and the mood ["All"] ask for nothing), its premium flag
    is the one asked for, and its title matches the search pattern (a
    missing or empty search asks for nothing).  When the catalog holds
    at most 100 instrumentals, every stored instrumental that meets the
    filters is listed. *)
Theorem get_instrumentals_sound (mood : option string)
    (is_premium : option bool) (search : option string)
    (c : list Instrumental.t) :
  let listed := fst (get_instrumentals regex_search_i mood is_premium search c) in
  let meets x :=
    (forall m, mood = Some m -> m <> "" -> m <> "All" -> Instrumental.mood x = m) /\
    (forall p, is_premium = Some p -> Instrumental.is_premium x = p) /\
    (forall s, search = Some s -> s <> "" ->
               regex_search_i s (Instrumental.title x) = true) in
  snd (get_instrumentals regex_search_i mood is_premium search c) = c /\
  (length listed <= 100)%nat /\
  (forall x, In x listed -> In x c /\ meets x) /\
  ((length c <= 100)%nat -> forall x, In x c -> meets x -> In x listed).
Proof.
  intros listed meets. subst listed meets.
  unfold get_instrumentals, db_instrumentals.find_to_list. cbn [fst snd].
  split; [reflexivity|]. split; [apply List.firstn_le_length|]. split.
  - intros x Hx. apply in_firstn in Hx. apply filter_In in Hx as [Hin Hq].
    split; [exact Hin|]. now apply listing_query_true.
  - intros Hlen x Hx Hm. rewrite List.firstn_all2.
    + apply filter_In. split; [exact Hx|]. now apply listing_query_true.
    + pose proof (List.filter_length_le
                    (listing_query regex_search_i mood is_premium search) c). lia.
Qed.
End ListingFacts.

(** X18.  [get_featured_instrumentals] writes nothing, never lists more
    than 10 instrumentals and lists only stored instrumentals that are
    featured; when at most 10 stored instrumentals are featured it
    lists every one of them. *)
Theorem get_featured_sound (c : list Instrumental.t) :
  let listed := fst (get_featured_instrumentals c) in
  snd (get_featured_instrumentals c) = c /\
  (length listed <= 10)%nat /\
  (forall x, In x listed -> In x c /\ Instrumental.is_featured x = true) /\
  ((length (List.filter Instrumental.is_featured c) <= 10)%nat ->
   forall x, In x c -> Instrumental.is_featured x = true -> In x listed).
Proof.
  intros listed. subst listed.
  unfold get_featured_instrumentals, db_instrumentals.find_to_list. cbn [fst snd].
  assert (Hext : List.filter (fun i => Bool.eqb (Instrumental.is_featured i) true) c =
                 List.filter Instrumental.is_featured c).
  { apply filter_ext. intros x. now destruct (Instrumental.is_featured x). }
  rewrite Hext.
  split; [reflexivity|]. split; [apply List.firstn_le_length|]. split.
  - intros x Hx. apply in_firstn in Hx. now apply filter_In in Hx.
  - intros Hlen x Hx Hf. rewrite List.firstn_all2 by exact Hlen.
    now apply filter_In.
Qed.

(** X19.  The numbers of [get_stats] add up: the premium and the free
    instrumentals together are all instrumentals, the users are the
    stored user records, and the active subscriptions are no more than
    the stored subscription rows. *)
Theorem get_stats_adds_up (c : list Instrumental.t) (d : DB) :
  exists total premium free active,
    get_stats c d !! "total_instrumentals" = Some total /\
    get_stats c d !! "premium_instrumentals" = Some premium /\
    get_stats c d !! "free_instrumentals" = Some free /\
    get_stats c d !! "total_users" = Some (length (users d)) /\
    get_stats c d !! "active_subscriptions" = Some active /\
    total = length c /\
    (premium + free = total)%nat /\
    (active <= length (subscriptions d))%nat.
Proof.
  do 4 eexists. unfold get_stats. cbv zeta.
  do 5 (split; [reflexivity|]). split; [reflexivity|]. split.
  - rewrite <- (List.filter_length
                  (fun i => Bool.eqb (Instrumental.is_premium i) true) c).
    f_equal. f_equal. apply filter_ext. intros x.
    now destruct (Instrumental.is_premium x).
  - apply List.filter_length_le.
Qed.

Lemma delete_all c : List.filter (fun _ : Instrumental.t => negb true) c = [].
Proof. induction c as [|a c IH]; [reflexivity|exact IH]. Qed.

(** X20.  [seed_database] is a reset.  Whatever the catalog held, after
    seeding it holds exactly the 15 sample instrumentals, in the order
    of the sample list, the [k]-th one with the [k]-th [uuid4] read as
    id and the [k]-th clock read, at the millisecond precision of the
    store, as creation instant, each with an audio url; the answer
    announces 15 instrumentals. *)
Theorem seed_database_resets (uuid4 : nat -> string) (utcnow : nat -> datetime)
    (c : list Instrumental.t) :
  let seeded := snd (seed_database uuid4 utcnow c) in
  fst (seed_database uuid4 utcnow c) =
    {[ "message" := "Seeded 15 instrumentals with audio URLs" ]} /\
  seeded = snd (seed_database uuid4 utcnow []) /\
  seeded = map (fun ki => new_instrumental (uuid4 (fst ki))
                            (utcnow (fst ki) / 1000 * 1000) (snd ki))
               (combine (seq 0 15) SAMPLE_INSTRUMENTALS) /\
  map Instrumental.id seeded = map uuid4 (seq 0 15) /\
  map Instrumental.created_at seeded =
    map (fun k => utcnow k / 1000 * 1000) (seq 0 15) /\
  map Instrumental.title seeded =
    map InstrumentalCreate.title SAMPLE_INSTRUMENTALS /\
  length seeded = 15%nat /\
  (forall x, In x seeded -> is_Some (Instrumental.audio_url x)).
Proof.
  intros seeded.
  assert (Hs : seeded =
    map (fun ki => new_instrumental (uuid4 (fst ki))
                     (utcnow (fst ki) / 1000 * 1000) (snd ki))
        (combine (seq 0 15) SAMPLE_INSTRUMENTALS)).
  { subst seeded.
    unfold seed_database, mbind, C_bind, db_instrumentals.delete_many.
    rewrite delete_all. reflexivity. }
  split; [|split; [|split; [exact Hs|]]].
  - unfold seed_database, mbind, C_bind, db_instrumentals.delete_many.
    rewrite delete_all. vm_compute. reflexivity.
  - rewrite Hs. reflexivity.
  - rewrite Hs. do 4 (split; [reflexivity|]).
    intros x Hx. apply in_map_iff in Hx as ([k item] & <- & Hin).
    apply in_combine_r in Hin. cbn [snd new_instrumental Instrumental.audio_url].
    simpl in Hin.
    repeat (destruct Hin as [<-|Hin]; [eexists; reflexivity|]). contradiction.
Qed.

(** ** The further properties on the sample stores *)

(** A new device registered at instant 1234567 is stored, and read
    back, with creation instant 1234000. *)
Lemma create_or_get_user_idempotent_witness :
  fst (create_or_get_user "u4" 99 (UserCreate.mk "device-3")
         (snd (create_or_get_user "u3" 1234567 (UserCreate.mk "device-3")
                 subscribed_db))) =
  {| User.id := "u3"; User.device_id := "device-3";
     User.is_subscribed := false; User.created_at := 1234000 |}.
Proof.
  destruct (create_or_get_user_idempotent subscribed_db "device-3" "u3" 1234567
              "u4" 99) as (_ & _ & _ & _ & _ & _ & _ & H).
  destruct H as (_ & _ & H); [|exact H].
  intros e Hin. simpl in Hin. intuition (subst; discriminate).
Defined.

Lemma get_user_after_create_witness :
  get_user "device-3"
    (snd (create_or_get_user "u3" 1234567 (UserCreate.mk "device-3") subscribed_db)) =
  (Return {| User.id := "u3"; User.device_id := "device-3";
             User.is_subscribed := false; User.created_at := 1234000 |},
   snd (create_or_get_user "u3" 1234567 (UserCreate.mk "device-3") subscribed_db)).
Proof.
  destruct (get_user_after_create subscribed_db "device-3" "u3" 1234567) as [_ H].
  destruct H as [_ H]; [|exact H].
  intros e Hin. simpl in Hin. intuition (subst; discriminate).
Defined.


Lemma create_or_get_user_keeps_keys_witness :
  let d' := snd (create_or_get_user "u3" 50 (UserCreate.mk "device-3") subscribed_db) in
  List.NoDup (map User.device_id (users d')) /\
  List.NoDup (map User.id (users d')).
Proof.
  assert (Hdev : List.NoDup (map User.device_id (users subscribed_db)))
    by distinct_ids.
  destruct (create_or_get_user_keeps_keys subscribed_db "device-3" "u3" 50 Hdev)
    as (H1 & H2 & _).
  split; [exact H1|]. apply H2; [distinct_ids|].
  simpl. intuition discriminate.
Defined.

Lemma cache_stays_sound_witness :
  cache_sound
    (serve_all [Subscribe 60 "s2" 61 (SubscriptionCreate.mk "u2" "monthly");
                GetStatus 200 "u1"; Cancel "u2"] subscribed_db).
Proof.
  apply (cache_stays_sound
           [Subscribe 60 "s2" 61 (SubscriptionCreate.mk "u2" "monthly");
            GetStatus 200 "u1"; Cancel "u2"] subscribed_db).
  - split; distinct_ids.
  - intros w Hin Hflag. simpl in Hin.
    destruct Hin as [<-|[<-|[]]]; [|discriminate Hflag].
    exists current_row. split; [right; left; reflexivity|split; reflexivity].
  - vm_compute. intuition discriminate.
Defined.

(** The subscription is built with expiry 2592000000060 and stored with
    expiry 2592000000000: a status check at 2592000000030 finds it
    expired. *)
Lemma subscribe_then_status_witness :
  let d1 := snd (subscribe 60 "s2" 61 (SubscriptionCreate.mk "u1" "monthly") lapsed_db) in
  fst (get_subscription_status 100 "u1" d1) !! "is_subscribed" = Some (VBool true) /\
  fst (get_subscription_status 2592000000030 "u1" d1) !! "is_subscribed" =
    Some (VBool false).
Proof.
  assert (Hu : unique_ids lapsed_db) by (split; distinct_ids).
  assert (Hno : no_active lapsed_db "u1") by none_active.
  assert (Hfresh : ~ In "s2" (map Subscription.id (subscriptions lapsed_db)))
    by (simpl; intuition discriminate).
  intros d1. split.
  - destruct (subscribe_then_status lapsed_db "u1" "monthly" 60 "s2" 61 100
                Hu Hno Hfresh) as (_ & H & _).
    fold d1 in H. rewrite H; [reflexivity|]. vm_compute. discriminate.
  - destruct (subscribe_then_status lapsed_db "u1" "monthly" 60 "s2" 61
                2592000000030 Hu Hno Hfresh) as (_ & _ & H).
    fold d1 in H. rewrite H; [reflexivity|]. vm_compute. reflexivity.
Defined.

Lemma status_check_is_stable_witness :
  let d' := snd (get_subscription_status 200 "u1" subscribed_db) in
  get_subscription_status 200 "u1" d' =
    (fst (get_subscription_status 200 "u1" subscribed_db), d') /\
  no_active d' "u1".
Proof.
  assert (Hu : unique_ids subscribed_db) by (split; distinct_ids).
  assert (Hone : at_most_one_active subscribed_db "u1") by count_rows.
  destruct (status_check_is_stable subscribed_db "u1" 200 Hu Hone) as [H1 H2].
  split; [exact H1|]. apply H2. vm_compute. reflexivity.
Defined.

Lemma other_users_are_untouched_witness :
  List.filter (fun w => String.eqb (User.id w) "u2")
    (users (serve subscribed_db (Cancel "u1"))) = [user2].
Proof.
  assert (Hu : unique_ids subscribed_db) by (split; distinct_ids).
  assert (Hne : target (Cancel "u1") <> "u2") by discriminate.
  rewrite (proj2 (other_users_are_untouched subscribed_db (Cancel "u1") "u2" Hu Hne)).
  reflexivity.
Defined.

Lemma update_instrumental_errors_witness :
  update_instrumental "t9" empty_update sample_catalog =
    (HTTPException 400 "No update data provided", sample_catalog) /\
  update_instrumental "t9" retitle sample_catalog =
    (HTTPException 404 "Instrumental not found", sample_catalog).
Proof.
  split.
  - now apply (proj1 (update_instrumental_errors "t9" empty_update sample_catalog)).
  - apply (proj2 (update_instrumental_errors "t9" retitle sample_catalog)).
    + discriminate.
    + intros x Hin. simpl in Hin. intuition (subst; discriminate).
Defined.

Lemma update_instrumental_round_trip_witness :
  exists x',
    update_instrumental "t2" retitle sample_catalog = (Return x', [track_a; x']) /\
    Instrumental.title x' = "Dawn" /\ Instrumental.duration x' = 0 /\
    Instrumental.mood x' = "Spiritual".
Proof.
  assert (Hnd : List.NoDup (map Instrumental.id ([track_a] ++ track_b :: [])))
    by distinct_ids.
  assert (Hd : retitle <> empty_update) by discriminate.
  eexists. split.
  - exact (proj1 (update_instrumental_round_trip retitle [track_a] track_b []
                    Hnd Hd)).
  - repeat split.
Defined.

Lemma updates_keep_identity_and_audio_witness :
  exists x', snd (update_instrumental "t1" retitle sample_catalog) !! 0%nat = Some x' /\
             Instrumental.id x' = "t1" /\
             is_Some (Instrumental.audio_url x').
Proof.
  destruct (proj1 (updates_keep_identity_and_audio sample_catalog 0 track_a "t1"
                     retitle "" 0 eq_refl)) as (x' & H1 & H2 & _ & H4).
  exists x'. split; [exact H1|]. split; [exact H2|]. apply H4. now eexists.
Defined.

Lemma delete_instrumental_removes_one_witness :
  delete_instrumental "t1" sample_catalog =
    (Return {[ "message" := "Instrumental deleted successfully" ]}, [track_b]) /\
  delete_instrumental "t9" sample_catalog =
    (HTTPException 404 "Instrumental not found", sample_catalog).
Proof.
  split.
  - apply (proj2 (delete_instrumental_removes_one "t1" sample_catalog)
             [] track_a [track_b] eq_refl eq_refl). distinct_ids.
  - apply (proj1 (delete_instrumental_removes_one "t9" sample_catalog)).
    intros x Hin. simpl in Hin. intuition (subst; discriminate).
Defined.

Lemma update_audio_url_sets_both_witness :
  exists x',
    update_audio_url "t2" "https://example.org/b.mp3" 0 sample_catalog =
      (Return {[ "message" := "Audio URL updated successfully" ]}, [track_a; x']) /\
    Instrumental.audio_url x' = Some "https://example.org/b.mp3".
Proof.
  eexists. split.
  - apply (proj2 (update_audio_url_sets_both "t2" "https://example.org/b.mp3" 0
                    sample_catalog) [track_a] track_b [] eq_refl eq_refl).
    distinct_ids.
  - reflexivity.
Defined.

(** Created at instant 11, the instrumental is read back with creation
    instant 0. *)
Lemma create_instrumental_round_trip_witness :
  let item := InstrumentalCreate.mk "Gentle Breeze" "Calm" 240 "4:00" false false
                None "#4A6357" 0 in
  let c' := snd (create_instrumental "t3" 11 item sample_catalog) in
  exists x, get_instrumental "t3" c' = (Return x, c') /\
            Instrumental.title x = "Gentle Breeze" /\
            Instrumental.created_at x = 0.
Proof.
  intros item c'.
  assert (Hfresh : ~ In "t3" (map Instrumental.id sample_catalog))
    by (simpl; intuition discriminate).
  destruct (create_instrumental_round_trip "t3" 11 item sample_catalog Hfresh)
    as (_ & _ & Hget & _).
  eexists. split; [exact Hget|]. split; reflexivity.
Defined.

Lemma get_instrumentals_sound_witness :
  In track_a
    (fst (get_instrumentals (fun _ _ => false) (Some "Calm") (Some false) (Some "")
            sample_catalog)).
Proof.
  apply (proj2 (proj2 (proj2 (get_instrumentals_sound (fun _ _ => false)
                                (Some "Calm") (Some false) (Some "")
                                sample_catalog)))).
  - simpl. lia.
  - left. reflexivity.
  - split; [|split].
    + now intros m [= <-] _ _.
    + now intros p [= <-].
    + intros s [= <-] H. contradiction.
Defined.

Lemma get_featured_sound_witness :
  In track_b (fst (get_featured_instrumentals sample_catalog)).
Proof.
  apply (proj2 (proj2 (proj2 (get_featured_sound sample_catalog)))).
  - simpl. lia.
  - right. left. reflexivity.
  - reflexivity.
Defined.

Lemma seed_database_resets_witness :
  length (snd (seed_database (fun k => pretty k) (fun k => Z.of_nat k + 1234567)
                 sample_catalog)) = 15%nat /\
  is_Some (Instrumental.audio_url
             (new_instrumental "0" 1234000
                (InstrumentalCreate.mk "Mawla Ya Salli - Peaceful" "Spiritual" 245
                   "4:05" false true
                   (Some "https://www.soundhelix.com/examples/mp3/SoundHelix-Song-1.mp3")
                   "#4A3463" 4500000))).
Proof.
  destruct (seed_database_resets (fun k => pretty k) (fun k => Z.of_nat k + 1234567)
              sample_catalog) as (_ & _ & Hs & _ & _ & _ & Hlen & Hall).
  split; [exact Hlen|]. apply Hall. rewrite Hs. left. reflexivity.
Defined.
